(** * dxr/vcs.py: version-control discovery and per-path lookup

    A shallow embedding of [dxr/vcs.py] (Python 2).  Python byte strings are
    [string]; dictionaries are [gmap string _]; the [OrderedDict] returned by
    [tree_to_repos] is an association list in iteration order; exceptions are
    an explicit [outcome]; the file system, the process environment and the
    output of the [hg], [git] and [p4] commands are fields of a [World]. *)

From Stdlib Require Import Ascii String.
From stdpp Require Import base option list sorting gmap strings.

Local Open Scope list_scope.
Local Open Scope stdpp_scope.

(** ** Python outcomes *)

Inductive exn : Type :=
| OSError
| CalledProcessError
| ValueError
| TypeError
| KeyError.

(** A call returns a value, raises, or (for the one [while] loop of the
    module, run with a bound on its iterations) has not finished yet. *)
Inductive outcome (A : Type) : Type :=
| Ok (a : A)
| Raise (e : exn)
| OutOfFuel.
Arguments Ok {A} a.
Arguments Raise {A} e.
Arguments OutOfFuel {A}.

Global Instance outcome_ret : MRet outcome := fun A a => Ok a.

Global Instance outcome_bind : MBind outcome := fun A B k m =>
  match m with
  | Ok a => k a
  | Raise e => Raise e
  | OutOfFuel => OutOfFuel
  end.

(** What a call out of the module does: it returns a value or raises. *)
Inductive result (A : Type) : Type :=
| Returned (a : A)
| Raised (e : exn).
Arguments Returned {A} a.
Arguments Raised {A} e.

Definition call {A : Type} (r : result A) : outcome A :=
  match r with
  | Returned a => Ok a
  | Raised e => Raise e
  end.

(** ** Python string operations used by the module *)

Module Py.

(** [s.startswith(p)] *)
Definition startswith (p s : string) : bool := String.prefix p s.

(** [s[n:]] for [0 <= n] *)
Fixpoint drop (n : nat) (s : string) : string :=
  match n, s with
  | O, _ => s
  | S n', String _ s' => drop n' s'
  | S _, EmptyString => EmptyString
  end.

(** [s[:n]] for [0 <= n] *)
Fixpoint take (n : nat) (s : string) : string :=
  match n, s with
  | S n', String a s' => String a (take n' s')
  | _, _ => EmptyString
  end.

(** [s.endswith(e)] *)
Definition endswith (e s : string) : bool :=
  (String.length e <=? String.length s)%nat
  && String.eqb (drop (String.length s - String.length e) s) e.

(** [s.split(c)] for a separator of one character: never empty, keeps
    empty fields. *)
Fixpoint split (c : ascii) (s : string) : list string :=
  match s with
  | EmptyString => [EmptyString]
  | String a s' =>
      if Ascii.eqb a c then EmptyString :: split c s'
      else match split c s' with
           | w :: ws => String a w :: ws
           | [] => [String a EmptyString]
           end
  end.

(** [s.split(c, 1)]: at most one split, at the first [c]. *)
Fixpoint split1 (c : ascii) (s : string) : list string :=
  match s with
  | EmptyString => [EmptyString]
  | String a s' =>
      if Ascii.eqb a c then [EmptyString; s']
      else match split1 c s' with
           | w :: ws => String a w :: ws
           | [] => [String a EmptyString]
           end
  end.

(** [s.split()]: fields separated by runs of white space. *)
Definition words (s : string) : list string := String.words s.

(** [sep.join(l)] *)
Definition join (sep : string) (l : list string) : string := String.concat sep l.

(** [s.rfind(c) + 1]: one past the last [c], 0 when there is none. *)
Fixpoint after_last (c : ascii) (s : string) : nat :=
  match s with
  | EmptyString => 0
  | String a s' =>
      match after_last c s' with
      | O => if Ascii.eqb a c then 1 else 0
      | S k => S (S k)
      end
  end.

(** [s == c * len(s)] *)
Fixpoint all_char (c : ascii) (s : string) : bool :=
  match s with
  | EmptyString => true
  | String a s' => Ascii.eqb a c && all_char c s'
  end.

(** [s.rstrip(c)] *)
Fixpoint rstrip (c : ascii) (s : string) : string :=
  match s with
  | EmptyString => EmptyString
  | String a s' =>
      match rstrip c s' with
      | EmptyString => if Ascii.eqb a c then EmptyString else String a EmptyString
      | t => String a t
      end
  end.

(** [s.lstrip()] and [s.strip()] on white space. *)
Fixpoint lstrip_space (s : string) : string :=
  match s with
  | EmptyString => EmptyString
  | String a s' => if Ascii.is_space a then lstrip_space s' else s
  end.

Fixpoint rstrip_space (s : string) : string :=
  match s with
  | EmptyString => EmptyString
  | String a s' =>
      match rstrip_space s' with
      | EmptyString => if Ascii.is_space a then EmptyString else String a EmptyString
      | t => String a t
      end
  end.

Definition strip (s : string) : string := rstrip_space (lstrip_space s).

(** [s.splitlines()] of a byte string: lines end at LF, CR or CR LF, and
    a final line terminator does not open another line. *)
Fixpoint splitlines_go (cur : string) (s : string) : list string :=
  match s with
  | EmptyString =>
      match cur with EmptyString => [] | _ => [String.rev cur] end
  | String a s' =>
      if Ascii.eqb a "010" then String.rev cur :: splitlines_go EmptyString s'
      else if Ascii.eqb a "013" then
        match s' with
        | String b s'' =>
            if Ascii.eqb b "010" then String.rev cur :: splitlines_go EmptyString s''
            else String.rev cur :: splitlines_go EmptyString s'
        | EmptyString => [String.rev cur]
        end
      else splitlines_go (String a cur) s'
  end.

Definition splitlines (s : string) : list string := splitlines_go EmptyString s.

End Py.

(** ** [os.path] (posixpath) *)

Module PosixPath.

Definition sep : ascii := "/"%char.
Definition curdir : string := ".".
Definition pardir : string := "..".

Definition isabs (s : string) : bool := Py.startswith "/" s.

(** [join(a, b)] *)
Definition join (a b : string) : string :=
  if Py.startswith "/" b then b
  else if String.eqb a "" || Py.endswith "/" a then a +:+ b
  else a +:+ "/" +:+ b.

(** [join(a, *p)] *)
Definition join_all (a : string) (p : list string) : string :=
  fold_left join p a.

(** [dirname(p)] *)
Definition dirname (p : string) : string :=
  let i := Py.after_last sep p in
  let head := Py.take i p in
  if negb (String.eqb head "") && negb (Py.all_char sep head)
  then Py.rstrip sep head
  else head.

(** One turn of the loop of [normpath].  The components kept so far are
    held last-first, so that [new_comps[-1]] is the head. *)
Definition normpath_step (initial_slashes : nat) (new_comps : list string)
    (comp : string) : list string :=
  if String.eqb comp "" || String.eqb comp "." then new_comps
  else if negb (String.eqb comp "..")
          || (Nat.eqb initial_slashes 0 && match new_comps with [] => true | _ => false end)
          || match new_comps with c :: _ => String.eqb c ".." | [] => false end
  then comp :: new_comps
  else match new_comps with
       | _ :: rest => rest
       | [] => new_comps
       end.

Fixpoint slashes (n : nat) : string :=
  match n with O => "" | S k => String sep (slashes k) end.

(** [normpath(path)] *)
Definition normpath (path : string) : string :=
  if String.eqb path "" then "."
  else
    let initial_slashes :=
      if Py.startswith "/" path then
        if Py.startswith "//" path && negb (Py.startswith "///" path) then 2 else 1
      else 0 in
    let comps := Py.split sep path in
    let new_comps := rev (fold_left (normpath_step initial_slashes) comps []) in
    let path := slashes initial_slashes +:+ Py.join "/" new_comps in
    if String.eqb path "" then "." else path.

(** [abspath(path)], with the process's working directory [cwd] *)
Definition abspath (cwd : string) (path : string) : string :=
  normpath (if isabs path then path else join cwd path).

(** [[x for x in abspath(p).split(sep) if x]] *)
Definition components (cwd : string) (p : string) : list string :=
  filter (fun x => x ≠ "") (Py.split sep (abspath cwd p)).

(** [len(commonprefix([l1, l2]))] for two lists of components: the length
    of their longest common prefix. *)
Fixpoint common_len (l1 l2 : list string) : nat :=
  match l1, l2 with
  | x :: l1', y :: l2' => if String.eqb x y then S (common_len l1' l2') else 0
  | _, _ => 0
  end.

(** [rel_list] of [relpath(path, start)] *)
Definition rel_list (cwd : string) (path start : string) : list string :=
  let start_list := components cwd start in
  let path_list := components cwd path in
  let i := common_len start_list path_list in
  replicate (length start_list - i) pardir ++ drop i path_list.

(** [relpath(path, start)] *)
Definition relpath (cwd : string) (path start : string) : outcome string :=
  if String.eqb path "" then Raise ValueError
  else
    match rel_list cwd path start with
    | [] => Ok curdir
    | a :: p => Ok (join_all a p)
    end.

(** [split(p)] *)
Definition split (p : string) : string * string :=
  let i := Py.after_last sep p in
  let head := Py.take i p in
  let tail := Py.drop i p in
  (if negb (String.eqb head "") && negb (Py.all_char sep head)
   then Py.rstrip sep head
   else head,
   tail).

End PosixPath.

(** ** The world outside the module *)

(** A directory tree without symbolic links; the entries of a directory
    carry distinct names, in the order [os.listdir] reports them.  The name
    of the topmost directory is not looked at. *)
#[warnings="-register-all"]
Inductive node : Type :=
| File (name : string)
| Dir (name : string) (entries : list node).

Definition node_name (n : node) : string :=
  match n with
  | File name => name
  | Dir name _ => name
  end.

(** One record of [p4 -G have], with the fields the module reads. *)
Record P4Record : Type := {
  p4_path : string;
  p4_depotFile : string;
  p4_haveRev : string;
}.

(** [tree]: the [TreeConfig] fields the module reads. *)
Record TreeConfig : Type := {
  source_folder : string;
  p4web_url : string;
}.

Record World : Type := {
  (** the directory [/] *)
  fs_root : node;
  (** [os.getcwd()] *)
  getcwd : string;
  (** [os.environ] *)
  environ : gmap string string;
  (** [subprocess.check_output([command] + args, cwd=cwd)] *)
  check_output : string -> list string -> string -> result string;
  (** [hglib.open(root, ...)] then [client.tip().node] *)
  hg_tip_node : string -> result string;
  (** [client.rawcommand(['previous-revisions'])] on that client *)
  hg_previous_revisions : string -> result string;
  (** what [Mercurial._construct_upstream_url] makes of [hg paths default]
      (lines 102-115, through [urlparse]) *)
  hg_upstream_url : string -> result string;
  (** [_p4run(['have'])] with [PWD] and [cwd] set to the root *)
  p4_have : string -> result (list P4Record);
}.

Module Os.

Fixpoint descend (n : node) (comps : list string) : option node :=
  match comps with
  | [] => Some n
  | c :: rest =>
      match n with
      | File _ => None
      | Dir _ entries =>
          match list_find (fun e => node_name e = c) entries with
          | Some (_, child) => descend child rest
          | None => None
          end
      end
  end.

(** The node a path names; paths are resolved lexically. *)
Definition lookup (w : World) (path : string) : option node :=
  if String.eqb path "" then None
  else descend (fs_root w) (PosixPath.components (getcwd w) path).

(** [os.path.exists(path)] *)
Definition exists_ (w : World) (path : string) : bool :=
  match lookup w path with Some _ => true | None => false end.

(** [os.listdir(path)] *)
Definition listdir (w : World) (path : string) : outcome (list string) :=
  match lookup w path with
  | Some (Dir _ entries) => Ok (node_name <$> entries)
  | _ => Raise OSError
  end.

Definition is_dir (n : node) : bool :=
  match n with Dir _ _ => true | File _ => false end.

(** The [dirs] list [os.walk] yields for a directory. *)
Definition subdirs (entries : list node) : list string :=
  node_name <$> filter (fun e => is_dir e = true) entries.

End Os.

(** [l.remove(x)] on a list known to hold [x]: drops the first occurrence. *)
Fixpoint list_remove_first (x : string) (l : list string) : list string :=
  match l with
  | [] => []
  | y :: l' => if String.eqb y x then l' else y :: list_remove_first x l'
  end.

(** [x in l] *)
Definition list_contains (x : string) (l : list string) : bool :=
  existsb (String.eqb x) l.

(** Modelled from the spec: [dxr.utils.without_ending], which is not in
    [dxr/vcs.py]; the spec has the second distributed backend strip a
    versioning suffix from the remote, and the call site passes the suffix
    first and the string second. *)
Definition without_ending (ending s : string) : string :=
  if Py.endswith ending s
  then Py.take (String.length s - String.length ending) s
  else s.

(** ** The three backends *)

Module Mercurial.

Record t : Type := {
  root : string;
  revision : string;
  previous_revisions : gmap string string;
  upstream : string;
}.

(** [find_previous_revisions]: each line is [node:path]. *)
Fixpoint previous_of_lines (lines : list string) (last_change : gmap string string)
    : outcome (gmap string string) :=
  match lines with
  | [] => Ok last_change
  | line :: rest =>
      match Py.split1 ":" line with
      | [node_; path] => previous_of_lines rest (<[path := node_]> last_change)
      | _ => Raise ValueError
      end
  end.

Definition find_previous_revisions (w : World) (root : string)
    : outcome (gmap string string) :=
  out ← call (hg_previous_revisions w root);
  previous_of_lines (Py.splitlines out) ∅.

(** [Mercurial(root)] *)
Definition init (w : World) (root : string) : outcome t :=
  tip ← call (hg_tip_node w root);
  prev ← find_previous_revisions w root;
  up ← call (hg_upstream_url w root);
  Ok {| root := root; revision := tip; previous_revisions := prev; upstream := up |}.

Definition claim_vcs_source (w : World) (path : string) (dirs : list string)
    (tree : TreeConfig) : outcome (option t * list string) :=
  if list_contains ".hg" dirs then
    let dirs := list_remove_first ".hg" dirs in
    h ← init w path;
    Ok (Some h, dirs)
  else Ok (None, dirs).

Definition display_rev (self : t) (path : string) : string :=
  Py.take 12 (revision self).

Definition is_tracked (self : t) (path : string) : bool :=
  bool_decide (is_Some (previous_revisions self !! path)).

Definition invoke_vcs (w : World) (args : list string) (cwd : string) : outcome string :=
  call (check_output w "hg" args cwd).

Definition generate_raw (self : t) (path : string) : string :=
  upstream self +:+ "raw-file/" +:+ revision self +:+ "/" +:+ path.

(** [self.previous_revisions[path]] raises [KeyError] for a path that is
    not a key. *)
Definition generate_diff (self : t) (path : string) : outcome string :=
  match previous_revisions self !! path with
  | Some node_ => Ok (upstream self +:+ "diff/" +:+ node_ +:+ "/" +:+ path)
  | None => Raise KeyError
  end.

Definition generate_blame (self : t) (path : string) : string :=
  upstream self +:+ "annotate/" +:+ revision self +:+ "/" +:+ path.

Definition generate_log (self : t) (path : string) : string :=
  upstream self +:+ "filelog/" +:+ revision self +:+ "/" +:+ path.

(** [Mercurial.get_contents(path, revision, stderr)] *)
Definition get_contents (w : World) (path revision : string) : outcome string :=
  let '(head, tail) := PosixPath.split path in
  invoke_vcs w ["cat"; "-r"; revision; tail] head.

End Mercurial.

Module Git.

Record t : Type := {
  root : string;
  tracked_files : gset string;
  revision : string;
  (** [None] is Python's [None], what [_construct_upstream_url] returns
      when it falls off its end *)
  upstream : option string;
}.

Definition unsupported_remote_warning : string :=
  "Your git remote is not supported yet. Please use a GitHub remote if you would like version control naviagtion links to show.".

(** The loop of [_construct_upstream_url] over the lines of [git remote -v];
    the second component lists the warnings issued. *)
Fixpoint upstream_of_lines (source_urls : list string)
    : outcome (option string * list string) :=
  match source_urls with
  | [] => Ok (None, [])
  | src_url :: rest =>
      if String.eqb src_url "" then upstream_of_lines rest
      else
        match Py.words src_url with
        | [name; repo; _] =>
            if String.eqb name "origin" then
              if Py.startswith "git@github.com:" repo then
                Ok (Some ("https://github.com/" +:+ Py.drop (String.length "git@github.com:") repo), [])
              else if Py.startswith "git://github.com/" repo
                      || Py.startswith "https://github.com/" repo then
                let repo := without_ending ".git" repo in
                let repo :=
                  if Py.startswith "git:" repo
                  then "https" +:+ Py.drop (String.length "git") repo
                  else repo in
                Ok (Some repo, [])
              else Ok (None, [unsupported_remote_warning])
            else upstream_of_lines rest
        | _ => Raise ValueError
        end
  end.

Definition invoke_vcs (w : World) (args : list string) (cwd : string) : outcome string :=
  call (check_output w "git" args cwd).

Definition _construct_upstream_url (w : World) (root : string)
    : outcome (option string * list string) :=
  out ← invoke_vcs w ["remote"; "-v"] root;
  upstream_of_lines (Py.split "010" out).

(** [Git(root)], with the warnings issued on the way *)
Definition init (w : World) (root : string) : outcome (t * list string) :=
  files ← invoke_vcs w ["ls-files"] root;
  rev ← invoke_vcs w ["rev-parse"; "HEAD"] root;
  '(up, warnings) ← _construct_upstream_url w root;
  Ok ({| root := root;
         tracked_files := list_to_set (Py.splitlines files);
         revision := Py.strip rev;
         upstream := up |}, warnings).

Definition claim_vcs_source (w : World) (path : string) (dirs : list string)
    (tree : TreeConfig) : outcome (option t * list string) :=
  if list_contains ".git" dirs then
    let dirs := list_remove_first ".git" dirs in
    '(h, _) ← init w path;
    Ok (Some h, dirs)
  else Ok (None, dirs).

Definition display_rev (self : t) (path : string) : string :=
  Py.take 10 (revision self).

Definition is_tracked (self : t) (path : string) : bool :=
  bool_decide (path ∈ tracked_files self).

(** [self.upstream + s]: [None + str] raises [TypeError] (unsupported
    operand types). *)
Definition upstream_plus (self : t) (s : string) : outcome string :=
  match upstream self with
  | Some u => Ok (u +:+ s)
  | None => Raise TypeError
  end.

Definition generate_raw (self : t) (path : string) : outcome string :=
  upstream_plus self ("/raw/" +:+ revision self +:+ "/" +:+ path).

Definition generate_diff (self : t) (path : string) : outcome string :=
  upstream_plus self ("/commit/" +:+ revision self).

Definition generate_blame (self : t) (path : string) : outcome string :=
  upstream_plus self ("/blame/" +:+ revision self +:+ "/" +:+ path).

Definition generate_log (self : t) (path : string) : outcome string :=
  upstream_plus self ("/commits/" +:+ revision self +:+ "/" +:+ path).

(** [Git.get_contents(path, revision, stderr)] *)
Definition get_contents (w : World) (path revision : string) : outcome string :=
  let '(head, tail) := PosixPath.split path in
  invoke_vcs w ["show"; revision +:+ ":./" +:+ tail] head.

End Git.

Module Perforce.

Record t : Type := {
  root : string;
  have : gmap string P4Record;
  upstream : string;
}.

(** [Perforce(root, upstream)] *)
Definition init (w : World) (root upstream : string) : outcome t :=
  records ← call (p4_have w root);
  Ok {| root := root;
        have := fold_left
                  (fun d x => <[Py.drop (String.length root + 1) (p4_path x) := x]> d)
                  records ∅;
        upstream := upstream |}.

Definition claim_vcs_source (w : World) (path : string) (dirs : list string)
    (tree : TreeConfig) : outcome (option t * list string) :=
  match environ w !! "P4CONFIG" with
  | None => Ok (None, dirs)
  | Some p4config =>
      if Os.exists_ w (PosixPath.join path p4config) then
        h ← init w path (p4web_url tree);
        Ok (Some h, dirs)
      else Ok (None, dirs)
  end.

Definition is_tracked (self : t) (path : string) : bool :=
  bool_decide (is_Some (have self !! path)).

(** [self.have[path]] *)
Definition info_of (self : t) (path : string) : outcome P4Record :=
  match have self !! path with
  | Some info => Ok info
  | None => Raise KeyError
  end.

Definition generate_raw (self : t) (path : string) : outcome string :=
  info ← info_of self path;
  Ok (upstream self +:+ p4_depotFile info +:+ "?ac=98&rev1=" +:+ p4_haveRev info).

Definition generate_blame (self : t) (path : string) : outcome string :=
  info ← info_of self path;
  Ok (upstream self +:+ p4_depotFile info +:+ "?ac=193").

Definition generate_log (self : t) (path : string) : outcome string :=
  info ← info_of self path;
  Ok (upstream self +:+ p4_depotFile info +:+ "?ac=22#" +:+ p4_haveRev info).

Definition display_rev (self : t) (path : string) : outcome string :=
  info ← info_of self path;
  Ok ("#" +:+ p4_haveRev info).

End Perforce.

(** A handle of one of the three classes. *)
Inductive Vcs : Type :=
| VMercurial (h : Mercurial.t)
| VGit (h : Git.t)
| VPerforce (h : Perforce.t).

Definition get_root_dir (self : Vcs) : string :=
  match self with
  | VMercurial h => Mercurial.root h
  | VGit h => Git.root h
  | VPerforce h => Perforce.root h
  end.

Definition get_vcs_name (self : Vcs) : string :=
  match self with
  | VMercurial _ => "Mercurial"
  | VGit _ => "Git"
  | VPerforce _ => "Perforce"
  end.

Definition is_tracked (self : Vcs) (path : string) : bool :=
  match self with
  | VMercurial h => Mercurial.is_tracked h path
  | VGit h => Git.is_tracked h path
  | VPerforce h => Perforce.is_tracked h path
  end.

(** The classes, as the items of [every_vcs]. *)
Inductive VcsClass : Type := MercurialClass | GitClass | PerforceClass.

Definition every_vcs : list VcsClass := [MercurialClass; GitClass; PerforceClass].

Definition as_vcs {T : Type} (inj : T -> Vcs) (r : outcome (option T * list string))
    : outcome (option Vcs * list string) :=
  '(h, dirs) ← r; Ok (option_map inj h, dirs).

Definition claim_vcs_source (vcs : VcsClass) (w : World) (path : string)
    (dirs : list string) (tree : TreeConfig) : outcome (option Vcs * list string) :=
  match vcs with
  | MercurialClass => as_vcs VMercurial (Mercurial.claim_vcs_source w path dirs tree)
  | GitClass => as_vcs VGit (Git.claim_vcs_source w path dirs tree)
  | PerforceClass => as_vcs VPerforce (Perforce.claim_vcs_source w path dirs tree)
  end.

(** ** Discovery: [tree_to_repos] *)

(** The body of [for vcs in every_vcs] in the downward walk: every class is
    asked in turn, on the same [dirs] list, which a claim may shorten. *)
Fixpoint claim_down (classes : list VcsClass) (w : World) (tree : TreeConfig)
    (cwd : string) (dirs : list string) (sources : gmap string Vcs)
    : outcome (gmap string Vcs * list string) :=
  match classes with
  | [] => Ok (sources, dirs)
  | vcs :: rest =>
      '(attempt, dirs) ← claim_vcs_source vcs w cwd dirs tree;
      let sources :=
        match attempt with
        | Some a => <[get_root_dir a := a]> sources
        | None => sources
        end in
      claim_down rest w tree cwd dirs sources
  end.

(** [for cwd, dirs, files in os.walk(...)] with its body, from the directory
    [n] named [top]: the body runs when [os.walk] yields the directory, and
    [os.walk] then descends into what the body left in [dirs]. *)
Fixpoint walk (w : World) (tree : TreeConfig) (top : string) (n : node)
    (sources : gmap string Vcs) {struct n} : outcome (gmap string Vcs) :=
  match n with
  | File _ => Ok sources
  | Dir _ entries =>
      '(sources, dirs) ← claim_down every_vcs w tree top (Os.subdirs entries) sources;
      fold_left
        (fun acc child =>
           match child with
           | Dir name _ =>
               if list_contains name dirs
               then sources ← acc; walk w tree (PosixPath.join top name) child sources
               else acc
           | File _ => acc
           end)
        entries (Ok sources)
  end.

(** [os.walk(top)] yields nothing when [top] cannot be listed. *)
Definition walk_from (w : World) (tree : TreeConfig) (top : string)
    (sources : gmap string Vcs) : outcome (gmap string Vcs) :=
  match Os.lookup w top with
  | Some n => walk w tree top n sources
  | None => Ok sources
  end.

(** The body of [for vcs in every_vcs] in the upward walk: the directory is
    listed anew for every class, and a claim is stored under [directory]. *)
Fixpoint claim_up (classes : list VcsClass) (w : World) (tree : TreeConfig)
    (directory : string) (sources : gmap string Vcs) : outcome (gmap string Vcs) :=
  match classes with
  | [] => Ok sources
  | vcs :: rest =>
      names ← Os.listdir w directory;
      '(attempt, _) ← claim_vcs_source vcs w directory names tree;
      let sources :=
        match attempt with
        | Some a => <[directory := a]> sources
        | None => sources
        end in
      claim_up rest w tree directory sources
  end.

(** [while directory != '/' and directory not in sources], run for at most
    [fuel] turns. *)
Fixpoint walk_up (fuel : nat) (w : World) (tree : TreeConfig)
    (directory : string) (sources : gmap string Vcs) : outcome (gmap string Vcs) :=
  if negb (String.eqb directory "/") && bool_decide (sources !! directory = None) then
    match fuel with
    | O => OutOfFuel
    | S fuel =>
        let directory := PosixPath.dirname directory in
        sources ← claim_up every_vcs w tree directory sources;
        walk_up fuel w tree directory sources
    end
  else Ok sources.

(** [sorted(keys, key=len, reverse=True)]: longest first, keys of one length
    in the order they came. *)
Fixpoint insert_by_len (k : string) (sorted : list string) : list string :=
  match sorted with
  | [] => [k]
  | k' :: rest =>
      if (String.length k' <=? String.length k)%nat then k :: sorted
      else k' :: insert_by_len k rest
  end.

Definition sorted_by_len_reverse (keys : list string) : list string :=
  foldr insert_by_len [] keys.

(** [sources[key]] *)
Definition getitem (sources : gmap string Vcs) (key : string) : outcome Vcs :=
  match sources !! key with
  | Some v => Ok v
  | None => Raise KeyError
  end.

(** The last loop: [ordered_sources[key] = sources[key]] in [lookup_order]. *)
Fixpoint ordered (sources : gmap string Vcs) (lookup_order : list string)
    : outcome (list (string * Vcs)) :=
  match lookup_order with
  | [] => Ok []
  | key :: rest =>
      v ← getitem sources key;
      tail ← ordered sources rest;
      Ok ((key, v) :: tail)
  end.

(** [sources.keys()]: the keys of a Python 2 dictionary come in an order the
    module does not control; here it is the order of [map_to_list]. *)
Definition keys (sources : gmap string Vcs) : list string :=
  (map_to_list sources).*1.

Definition tree_to_repos (fuel : nat) (w : World) (tree : TreeConfig)
    : outcome (list (string * Vcs)) :=
  sources ← walk_from w tree (source_folder tree) ∅;
  sources ← walk_up fuel w tree (source_folder tree) sources;
  let lookup_order := sorted_by_len_reverse (keys sources) in
  ordered sources lookup_order.

(** ** [file_contents_at_rev] *)

(** One turn of [for cls in [Mercurial, Git]]: the contents are returned,
    [CalledProcessError] sends the loop to its next turn, any other
    exception leaves the function. *)
Definition or_next (attempt : outcome string) (next : outcome (option string))
    : outcome (option string) :=
  match attempt with
  | Ok contents => Ok (Some contents)
  | Raise CalledProcessError => next
  | Raise e => Raise e
  | OutOfFuel => OutOfFuel
  end.

Definition file_contents_at_rev (w : World) (abspath revision : string)
    : outcome (option string) :=
  or_next (Mercurial.get_contents w abspath revision)
    (or_next (Git.get_contents w abspath revision)
       (Ok None)).

(** ** Lookup: [VcsCache] *)

Module VcsCache.

Record t : Type := {
  tree : TreeConfig;
  repos : list (string * Vcs);
  _path_cache : gmap string Vcs;
}.

(** [VcsCache(tree)] *)
Definition init (fuel : nat) (w : World) (tree : TreeConfig) : outcome t :=
  repos ← tree_to_repos fuel w tree;
  Ok {| tree := tree; repos := repos; _path_cache := ∅ |}.

(** The test that sends the loop to its next turn. *)
Definition outside (w : World) (abs_path directory : string) : outcome bool :=
  rel ← PosixPath.relpath (getcwd w) abs_path directory;
  Ok (Py.startswith ".." rel).

(** [vcs.is_tracked(relpath(abs_path, vcs.get_root_dir()))] *)
Definition tracks (w : World) (abs_path : string) (vcs : Vcs) : outcome bool :=
  rel ← PosixPath.relpath (getcwd w) abs_path (get_root_dir vcs);
  Ok (is_tracked vcs rel).

(** [for directory, vcs in self.repos.iteritems()]: the handle the loop
    stores before its [break], if it stores one. *)
Fixpoint scan (w : World) (abs_path : string) (repos : list (string * Vcs))
    : outcome (option Vcs) :=
  match repos with
  | [] => Ok None
  | (directory, vcs) :: rest =>
      out ← outside w abs_path directory;
      if (out : bool) then scan w abs_path rest
      else
        tr ← tracks w abs_path vcs;
        if (tr : bool) then Ok (Some vcs) else scan w abs_path rest
  end.

(** [self.vcs_for_path(path)]: what the call returns or raises, and the
    session after it. *)
Definition vcs_for_path (w : World) (self : t) (path : string)
    : outcome (option Vcs) * t :=
  match _path_cache self !! path with
  | Some v => (Ok (Some v), self)
  | None =>
      let abs_path := PosixPath.join (source_folder (tree self)) path in
      match scan w abs_path (repos self) with
      | Ok found =>
          let self :=
            match found with
            | Some vcs =>
                {| tree := tree self; repos := repos self;
                   _path_cache := <[path := vcs]> (_path_cache self) |}
            | None => self
            end in
          (Ok (_path_cache self !! path), self)
      | Raise e => (Raise e, self)
      | OutOfFuel => (OutOfFuel, self)
      end
  end.

End VcsCache.

(** ** Notions the statements below are written in *)

(** The session with another path cache, or another registry. *)
Definition with_cache (self : VcsCache.t) (cache : gmap string Vcs) : VcsCache.t :=
  {| VcsCache.tree := VcsCache.tree self;
     VcsCache.repos := VcsCache.repos self;
     VcsCache._path_cache := cache |}.

Definition with_repos (self : VcsCache.t) (repos : list (string * Vcs)) : VcsCache.t :=
  {| VcsCache.tree := VcsCache.tree self;
     VcsCache.repos := repos;
     VcsCache._path_cache := VcsCache._path_cache self |}.

(** [abs_path] of [vcs_for_path] *)
Definition abs_path_of (self : VcsCache.t) (path : string) : string :=
  PosixPath.join (source_folder (VcsCache.tree self)) path.

(** A relative path escapes upward when its first component is [..]. *)
Definition escapes_upward (rel : list string) : bool :=
  match rel with
  | c :: _ => String.eqb c PosixPath.pardir
  | [] => false
  end.

(** A path lies within a root iff its relative path from that root does not
    escape upward. *)
Definition lies_within (w : World) (abs_path root : string) : bool :=
  negb (escapes_upward (PosixPath.rel_list (getcwd w) abs_path root)).

(** [r1] is [r2] followed by a relative path that is not empty: the paths
    [os.walk] makes for what is below [r2]. *)
Definition strict_subdir (r1 r2 : string) : Prop :=
  exists rest, rest ≠ "" /\ Py.startswith "/" rest = false /\ r1 = PosixPath.join r2 rest.

(** [r1] comes before [r2] in [l]. *)
Definition appears_before (r1 r2 : string) (l : list string) : Prop :=
  exists l1 l2 l3, l = l1 ++ r1 :: l2 ++ r2 :: l3.

(** The registry is ordered by path length, longest first. *)
Definition longest_first (l : list string) : Prop :=
  StronglySorted (fun a b => String.length b <= String.length a) l.

(** The entry a directory has after the three classes were asked: the
    handle of the last class that claimed it, or the entry it had. *)
Definition last_claim (hg git p4 before : option Vcs) : option Vcs :=
  match p4, git, hg with
  | Some h, _, _ => Some h
  | None, Some h, _ => Some h
  | None, None, Some h => Some h
  | None, None, None => before
  end.

(** A line of [git remote -v] the loop of [_construct_upstream_url] passes
    over: an empty one, or one of three fields for a remote other than
    [origin]. *)
Definition passed_over (line : string) : Prop :=
  line = "" \/ exists name repo tag, Py.words line = [name; repo; tag] /\ name ≠ "origin".

(** A remote URL of none of the forms [_construct_upstream_url] knows. *)
Definition unrecognized (repo : string) : Prop :=
  Py.startswith "git@github.com:" repo = false
  /\ Py.startswith "git://github.com/" repo = false
  /\ Py.startswith "https://github.com/" repo = false.

(** A path that begins with one slash, not with two. *)
Definition single_slash (d : string) : Prop :=
  Py.startswith "/" d = true /\ Py.startswith "//" d = false.

(** ** Trees and checkouts to run the module on *)

Definition lf : string := String "010" "".
Definition tab : string := String "009" "".

(** What the [git] command prints in a checkout with the tracked [files]
    and the one remote [origin]. *)
Definition git_prints (files : list string) (origin : string) (args : list string)
    : result string :=
  match args with
  | ["ls-files"] => Returned (Py.join "" ((fun f => f +:+ lf) <$> files))
  | ["rev-parse"; "HEAD"] => Returned ("def4567890abcdef0123" +:+ lf)
  | ["remote"; "-v"] =>
      Returned ("origin" +:+ tab +:+ origin +:+ " (fetch)" +:+ lf
          +:+ "origin" +:+ tab +:+ origin +:+ " (push)" +:+ lf)
  | _ => Raised CalledProcessError
  end.

(** A machine with the tree [root] at [/], the environment [env], [git]
    checkouts as [checkouts] lists them by directory, and Mercurial
    checkouts that all track [main.c]. *)
Definition machine (root : node) (env : gmap string string)
    (checkouts : list (string * (list string * string))) : World :=
  {| fs_root := root;
     getcwd := "/";
     environ := env;
     check_output := fun command args cwd =>
       match list_find (fun c => c.1 = cwd) checkouts with
       | Some (_, (_, (files, origin))) =>
           if String.eqb command "git" then git_prints files origin args
           else Raised OSError
       | None => Raised CalledProcessError
       end;
     hg_tip_node := fun _ => Returned "abc123abc123abc123abc1";
     hg_previous_revisions := fun _ => Returned ("abc123abc123:main.c" +:+ lf);
     hg_upstream_url := fun _ => Returned "http://hg.example.org/repo/";
     p4_have := fun root =>
       Returned [ {| p4_path := root +:+ "/main.c";
               p4_depotFile := "//depot/main.c";
               p4_haveRev := "7" |} ] |}.

(** Three checkouts, one inside the other; each lists [f.c] except the
    innermost. *)
Definition nested_world (origin : string) : World :=
  machine
    (Dir "" [Dir "src" [Dir ".git" [];
                        Dir "a" [Dir ".git" [];
                                 Dir "b" [Dir ".git" []; File "f.c"; File "zzz"]]];
             Dir "etc" []])
    ∅
    [("/src", (["a/b/f.c"], origin));
     ("/src/a", (["b/f.c"], origin));
     ("/src/a/b", ([], origin))].

Definition github_ssh_origin : string := "git@github.com:org/repo.git".
Definition other_origin : string := "git@bitbucket.org:org/repo.git".

Definition src_tree : TreeConfig := {| source_folder := "/src"; p4web_url := "http://p4web/" |}.

Definition nested_handle (root : string) (files : list string) : Vcs :=
  VGit {| Git.root := root;
          Git.tracked_files := list_to_set files;
          Git.revision := "def4567890abcdef0123";
          Git.upstream := Some "https://github.com/org/repo.git" |}.

Definition nested_inner : Vcs := nested_handle "/src/a/b" [].
Definition nested_middle : Vcs := nested_handle "/src/a" ["b/f.c"].
Definition nested_outer : Vcs := nested_handle "/src" ["a/b/f.c"].

Definition nested_session : VcsCache.t :=
  {| VcsCache.tree := src_tree;
     VcsCache.repos :=
       [("/src/a/b", nested_inner); ("/src/a", nested_middle); ("/src", nested_outer)];
     VcsCache._path_cache := ∅ |}.

(** One directory with the markers of Mercurial and of Git. *)
Definition both_world : World :=
  machine (Dir "" [Dir "src" [Dir ".hg" []; Dir ".git" []; File "main.c"]])
    ∅
    [("/src", (["main.c"], github_ssh_origin))].

(** A checkout that tracks a file below a directory named [..cfg]. *)
Definition dotdot_world : World :=
  machine (Dir "" [Dir "src" [Dir ".git" []; Dir "..cfg" [File "x"]]])
    ∅
    [("/src", (["..cfg/x"], github_ssh_origin))].

Definition dotdot_handle : Vcs := nested_handle "/src" ["..cfg/x"].

Definition dotdot_session : VcsCache.t :=
  {| VcsCache.tree := src_tree;
     VcsCache.repos := [("/src", dotdot_handle)];
     VcsCache._path_cache := ∅ |}.

(** A tree under no version control, named with two leading slashes. *)
Definition plain_world : World :=
  machine (Dir "" [Dir "etc" [File "passwd"]]) ∅ [].

Definition double_slash_tree : TreeConfig :=
  {| source_folder := "//etc"; p4web_url := "" |}.

(** A Perforce client: [P4CONFIG] names a file that is in [/depot]. *)
Definition p4_world : World :=
  machine (Dir "" [Dir "depot" [File ".p4config"; File "main.c"]])
    {[ "P4CONFIG" := ".p4config" ]}
    [].

(** A tree that is a directory inside a checkout, not a checkout itself. *)
Definition docs_world : World :=
  machine (Dir "" [Dir "src" [Dir ".git" []; File "main.c"; Dir "docs" [File "guide.txt"]]])
    ∅
    [("/src", (["main.c"; "docs/guide.txt"], github_ssh_origin))].

Definition docs_tree : TreeConfig := {| source_folder := "/src/docs"; p4web_url := "" |}.

(** The same tree named from the working directory [/src]. *)
Definition relative_docs_world : World :=
  {| fs_root := fs_root docs_world;
     getcwd := "/src";
     environ := environ docs_world;
     check_output := check_output docs_world;
     hg_tip_node := hg_tip_node docs_world;
     hg_previous_revisions := hg_previous_revisions docs_world;
     hg_upstream_url := hg_upstream_url docs_world;
     p4_have := p4_have docs_world |}.

Definition relative_docs_tree : TreeConfig := {| source_folder := "docs"; p4web_url := "" |}.

(** A directory with a [.git] in which the [git] command fails. *)
Definition broken_world : World :=
  machine (Dir "" [Dir "src" [Dir ".git" []; File "main.c"]]) ∅ [].

(** A machine where [hg] finds no repository and [git show] prints the
    file. *)
Definition contents_world : World :=
  {| fs_root := fs_root docs_world;
     getcwd := "/";
     environ := ∅;
     check_output := fun command args cwd =>
       if String.eqb command "git" then
         match args with
         | ["show"; _] => Returned "int main(void);"
         | _ => Raised CalledProcessError
         end
       else Raised CalledProcessError;
     hg_tip_node := fun _ => Raised OSError;
     hg_previous_revisions := fun _ => Raised OSError;
     hg_upstream_url := fun _ => Raised OSError;
     p4_have := fun _ => Raised OSError |}.

(** What [git remote -v] prints for a remote named [name]. *)
Definition remote_lines (name url : string) : string :=
  name +:+ tab +:+ url +:+ " (fetch)" +:+ lf +:+ name +:+ tab +:+ url +:+ " (push)" +:+ lf.

(** A checkout whose [git remote -v] prints [remotes]. *)
Definition remotes_world (remotes : string) : World :=
  {| fs_root := Dir "" [Dir "src" [Dir ".git" []; File "main.c"]];
     getcwd := "/";
     environ := ∅;
     check_output := fun command args cwd =>
       match args with
       | ["ls-files"] => Returned ("main.c" +:+ lf)
       | ["rev-parse"; "HEAD"] => Returned ("def4567890abcdef0123" +:+ lf)
       | ["remote"; "-v"] => Returned remotes
       | _ => Raised CalledProcessError
       end;
     hg_tip_node := fun _ => Raised OSError;
     hg_previous_revisions := fun _ => Raised OSError;
     hg_upstream_url := fun _ => Raised OSError;
     p4_have := fun _ => Raised OSError |}.

(** A work tree whose [.git] is a file, as in a submodule, inside a tree
    that is walked from [/src]. *)
Definition gitfile_world : World :=
  machine
    (Dir "" [Dir "src" [File "main.c"; Dir "sub" [File ".git"; File "lib.c"]]])
    ∅
    [("/src/sub", (["lib.c"], github_ssh_origin))].

(** A Mercurial checkout whose history lists [main.c] twice. *)
Definition twice_listed_world : World :=
  {| fs_root := Dir "" [Dir "src" [Dir ".hg" []; File "main.c"; File "other.c"]];
     getcwd := "/";
     environ := ∅;
     check_output := fun _ _ _ => Raised CalledProcessError;
     hg_tip_node := fun _ => Returned "ccc333";
     hg_previous_revisions := fun _ =>
       Returned ("aaa111:main.c" +:+ lf +:+ "bbb222:main.c" +:+ lf
                 +:+ "ccc333:other.c" +:+ lf);
     hg_upstream_url := fun _ => Returned "http://hg.example.org/repo/";
     p4_have := fun _ => Raised OSError |}.
Example dirname_nested : PosixPath.dirname "/a/b" = "/a".
Proof. reflexivity. Qed.
Example dirname_trailing : PosixPath.dirname "/a/b/" = "/a/b".
Proof. reflexivity. Qed.
Example dirname_top : PosixPath.dirname "/a" = "/".
Proof. reflexivity. Qed.
Example dirname_double : PosixPath.dirname "//a" = "//".
Proof. reflexivity. Qed.
Example dirname_relative : PosixPath.dirname "a" = "".
Proof. reflexivity. Qed.
Example normpath_dots : PosixPath.normpath "/a/./b/../c//d/" = "/a/c/d".
Proof. reflexivity. Qed.
Example normpath_double : PosixPath.normpath "//a/.." = "//".
Proof. reflexivity. Qed.
Example relpath_inside : PosixPath.relpath "/" "/src/a/b.c" "/src" = Ok "a/b.c".
Proof. reflexivity. Qed.
Example relpath_outside : PosixPath.relpath "/" "/src/a/b.c" "/src/x/y" = Ok "../../a/b.c".
Proof. reflexivity. Qed.
Example relpath_same : PosixPath.relpath "/" "/src" "/src/" = Ok ".".
Proof. reflexivity. Qed.
Example split_keeps_empty : Py.split "/" "/a//b" = [""; "a"; ""; "b"].
Proof. reflexivity. Qed.
Example splitlines_mixed : Py.splitlines ("a" +:+ String "010" ("b" +:+ String "013" (String "010" "c" +:+ String "010" ""))) = ["a"; "b"; "c"].
Proof. reflexivity. Qed.


(** ** Facts about the lookup *)

Section Lookup.
Context (w : World).

Lemma vcs_for_path_cached self path v :
  VcsCache._path_cache self !! path = Some v ->
  VcsCache.vcs_for_path w self path = (Ok (Some v), self).
Proof. intros H. unfold VcsCache.vcs_for_path. by rewrite H. Qed.

Lemma vcs_for_path_found self path vcs :
  VcsCache._path_cache self !! path = None ->
  VcsCache.scan w (abs_path_of self path) (VcsCache.repos self) = Ok (Some vcs) ->
  VcsCache.vcs_for_path w self path
  = (Ok (Some vcs), with_cache self (<[path := vcs]> (VcsCache._path_cache self))).
Proof.
  intros Hc Hs. unfold VcsCache.vcs_for_path, abs_path_of in *.
  rewrite Hc, Hs. cbn. by rewrite lookup_insert_eq.
Qed.

Lemma vcs_for_path_absent self path :
  VcsCache._path_cache self !! path = None ->
  VcsCache.scan w (abs_path_of self path) (VcsCache.repos self) = Ok None ->
  VcsCache.vcs_for_path w self path = (Ok None, self).
Proof.
  intros Hc Hs. unfold VcsCache.vcs_for_path, abs_path_of in *.
  rewrite Hc, Hs. cbn. by rewrite Hc.
Qed.

Lemma vcs_for_path_raises self path e :
  VcsCache._path_cache self !! path = None ->
  VcsCache.scan w (abs_path_of self path) (VcsCache.repos self) = Raise e ->
  VcsCache.vcs_for_path w self path = (Raise e, self).
Proof.
  intros Hc Hs. unfold VcsCache.vcs_for_path, abs_path_of in *. by rewrite Hc, Hs.
Qed.

Lemma relpath_finishes path start : PosixPath.relpath (getcwd w) path start ≠ OutOfFuel.
Proof. unfold PosixPath.relpath. repeat case_match; done. Qed.

Lemma scan_finishes abs_path repos : VcsCache.scan w abs_path repos ≠ OutOfFuel.
Proof.
  induction repos as [|[d v] rest IH]; cbn; [done|].
  unfold VcsCache.outside, VcsCache.tracks.
  pose proof (relpath_finishes abs_path d) as Hd.
  pose proof (relpath_finishes abs_path (get_root_dir v)) as Hv.
  destruct (PosixPath.relpath _ abs_path d) as [rel| |]; cbn; try done.
  destruct (Py.startswith ".." rel); [done|].
  destruct (PosixPath.relpath _ abs_path (get_root_dir v)) as [rel'| |]; cbn; try done.
  by destruct (is_tracked v rel').
Qed.


End Lookup.

(** ** The path cache *)

Lemma nested_session_built :
  VcsCache.init 5 (nested_world github_ssh_origin) src_tree = Ok nested_session.
Proof. vm_compute. reflexivity. Qed.

(** C5.  Asking for the same path twice in one session gives the same
    answer both times (a handle, no handle, or the same exception), and
    neither call changes the root registry. *)
Theorem C5_resolve_twice (w : World) (self : VcsCache.t) (path : string) :
  let first := VcsCache.vcs_for_path w self path in
  let second := VcsCache.vcs_for_path w first.2 path in
  second.1 = first.1
  /\ VcsCache.repos first.2 = VcsCache.repos self
  /\ VcsCache.repos second.2 = VcsCache.repos self.
Proof.
  cbv zeta.
  destruct (VcsCache._path_cache self !! path) as [v|] eqn:Hc.
  - rewrite !(vcs_for_path_cached w self path v Hc). cbn.
    by rewrite (vcs_for_path_cached w self path v Hc).
  - destruct (VcsCache.scan w (abs_path_of self path) (VcsCache.repos self))
      as [[vcs|]| e |] eqn:Hs.
    + rewrite !(vcs_for_path_found w self path vcs Hc Hs). cbn.
      rewrite (vcs_for_path_cached w _ path vcs); [done|].
      cbn. apply lookup_insert_eq.
    + rewrite !(vcs_for_path_absent w self path Hc Hs). cbn.
      by rewrite (vcs_for_path_absent w self path Hc Hs).
    + rewrite !(vcs_for_path_raises w self path e Hc Hs). cbn.
      by rewrite (vcs_for_path_raises w self path e Hc Hs).
    + by destruct (scan_finishes w _ _ Hs).
Qed.

(** C4, as the module has it.  A handle that [vcs_for_path] returns for a
    path is stored in the path cache under that path, and the next query for
    the path is answered from the cache, whatever the registry holds.  When
    [vcs_for_path] returns no handle, the session is left as it was and the
    cache has no entry for the path. *)
Theorem C4_found_handle_is_cached (w : World) (self self' : VcsCache.t)
    (path : string) (result : outcome (option Vcs)) :
  VcsCache.vcs_for_path w self path = (result, self') ->
  (forall h, result = Ok (Some h) ->
     VcsCache._path_cache self' !! path = Some h
     /\ forall repos',
          VcsCache.vcs_for_path w (with_repos self' repos') path
          = (Ok (Some h), with_repos self' repos'))
  /\ (result = Ok None ->
      self' = self /\ VcsCache._path_cache self' !! path = None).
Proof.
  intros Hcall.
  assert (Hcached : forall h, VcsCache._path_cache self' !! path = Some h ->
            forall repos', VcsCache.vcs_for_path w (with_repos self' repos') path
                           = (Ok (Some h), with_repos self' repos')).
  { intros h Hh repos'. by apply vcs_for_path_cached. }
  destruct (VcsCache._path_cache self !! path) as [v|] eqn:Hc.
  - rewrite (vcs_for_path_cached w self path v Hc) in Hcall.
    injection Hcall as <- <-. split; [|done].
    intros h [= <-]. eauto.
  - destruct (VcsCache.scan w (abs_path_of self path) (VcsCache.repos self))
      as [[vcs|]| e |] eqn:Hs.
    + rewrite (vcs_for_path_found w self path vcs Hc Hs) in Hcall.
      injection Hcall as <- <-. split; [|done].
      intros h [= <-].
      assert (VcsCache._path_cache
                (with_cache self (<[path:=vcs]> (VcsCache._path_cache self))) !! path
              = Some vcs) as Hin by apply lookup_insert_eq.
      eauto.
    + rewrite (vcs_for_path_absent w self path Hc Hs) in Hcall.
      injection Hcall as <- <-. split; [done|]. by intros _.
    + rewrite (vcs_for_path_raises w self path e Hc Hs) in Hcall.
      injection Hcall as <- <-. by split.
    + by destruct (scan_finishes w _ _ Hs).
Qed.

Lemma C4_found_handle_is_cached_witness :
  let w := nested_world github_ssh_origin in
  let after :=
    with_cache nested_session (<[ "a/b/f.c" := nested_middle ]> ∅) in
  VcsCache.vcs_for_path w nested_session "a/b/f.c" = (Ok (Some nested_middle), after)
  /\ VcsCache._path_cache after !! "a/b/f.c" = Some nested_middle
  /\ VcsCache.vcs_for_path w (with_repos after []) "a/b/f.c"
     = (Ok (Some nested_middle), with_repos after []).
Proof.
  cbv zeta.
  assert (Hcall : VcsCache.vcs_for_path (nested_world github_ssh_origin) nested_session "a/b/f.c"
                  = (Ok (Some nested_middle),
                     with_cache nested_session (<[ "a/b/f.c" := nested_middle ]> ∅))).
  { vm_compute. reflexivity. }
  split; [exact Hcall|].
  destruct (C4_found_handle_is_cached _ _ _ _ _ Hcall) as [Hfound _].
  destruct (Hfound nested_middle eq_refl) as [Hin Hnext].
  split; [exact Hin | exact (Hnext [])].
Defined.

(** C4 as the spec words it fails: a path no root tracks gets no entry. *)
Lemma C4_counterexample :
  let w := nested_world github_ssh_origin in
  let first := VcsCache.vcs_for_path w nested_session "a/b/zzz" in
  VcsCache.init 5 w src_tree = Ok nested_session
  /\ first.1 = Ok None
  /\ VcsCache._path_cache first.2 !! "a/b/zzz" = None.
Proof. cbv zeta. split; [|split]; vm_compute; reflexivity. Qed.




(** ** The order of the registry *)

Lemma string_length_app (s1 s2 : string) :
  String.length (s1 +:+ s2) = String.length s1 + String.length s2.
Proof.
  induction s1 as [|a s1 IH]; [done|].
  change (String a s1 +:+ s2) with (String a (s1 +:+ s2)). cbn. by rewrite IH.
Qed.

Lemma insert_by_len_perm (k : string) (l : list string) :
  insert_by_len k l ≡ₚ k :: l.
Proof.
  induction l as [|k' l IH]; cbn; [done|].
  destruct (String.length k' <=? String.length k); [done|].
  rewrite IH. apply Permutation_swap.
Qed.

Lemma insert_by_len_sorted (k : string) (l : list string) :
  longest_first l -> longest_first (insert_by_len k l).
Proof.
  unfold longest_first. induction l as [|k' l IH]; cbn; intros Hl.
  - repeat constructor.
  - apply StronglySorted_cons in Hl as [Hk' Hl].
    destruct (Nat.leb_spec (String.length k') (String.length k)) as [Hle|Hlt].
    + apply StronglySorted_cons. split.
      * constructor; [done|].
        eapply Forall_impl; [exact Hk'|]. cbn. lia.
      * by apply StronglySorted_cons.
    + apply StronglySorted_cons. split; [|by apply IH].
      rewrite insert_by_len_perm. constructor; [lia|done].
Qed.

Lemma sorted_by_len_reverse_perm (l : list string) : sorted_by_len_reverse l ≡ₚ l.
Proof.
  induction l as [|k l IH]; cbn; [done|].
  by rewrite insert_by_len_perm, IH.
Qed.

Lemma sorted_by_len_reverse_sorted (l : list string) :
  longest_first (sorted_by_len_reverse l).
Proof.
  induction l as [|k l IH]; cbn.
  - constructor.
  - by apply insert_by_len_sorted.
Qed.

Lemma ordered_keys (sources : gmap string Vcs) (l : list string)
    (reg : list (string * Vcs)) :
  ordered sources l = Ok reg -> reg.*1 = l.
Proof.
  revert reg. induction l as [|k l IH]; cbn; intros reg H.
  - by injection H as <-.
  - unfold getitem in H. destruct (sources !! k) as [v|]; cbn in H; [|done].
    destruct (ordered sources l) as [tail| |]; cbn in H; try done.
    injection H as <-. cbn. by rewrite (IH tail eq_refl).
Qed.

(** Every listed key is in the dictionary, so the last loop never raises. *)
Lemma ordered_total (sources : gmap string Vcs) (l : list string) :
  Forall (fun k => is_Some (sources !! k)) l ->
  exists reg, ordered sources l = Ok reg.
Proof.
  induction 1 as [|k l [v Hk] _ [tail IH]]; cbn.
  - by eexists.
  - unfold getitem. rewrite Hk. cbn. rewrite IH. cbn. by eexists.
Qed.

Lemma tree_to_repos_keys (fuel : nat) (w : World) (tree : TreeConfig)
    (reg : list (string * Vcs)) :
  tree_to_repos fuel w tree = Ok reg ->
  exists sources : gmap string Vcs, reg.*1 = sorted_by_len_reverse (keys sources).
Proof.
  unfold tree_to_repos. intros H.
  destruct (walk_from w tree (source_folder tree) ∅) as [s1| |]; cbn in H; try done.
  destruct (walk_up fuel w tree (source_folder tree) s1) as [s2| |]; cbn in H; try done.
  exists s2. by apply (ordered_keys s2).
Qed.

Lemma strict_subdir_longer (r1 r2 : string) :
  strict_subdir r1 r2 -> String.length r2 < String.length r1.
Proof.
  intros (rest & Hne & Hrel & ->). unfold PosixPath.join. rewrite Hrel.
  assert (0 < String.length rest) by (destruct rest; [done | cbn; lia]).
  destruct (_ || _); rewrite !string_length_app; cbn; lia.
Qed.

Lemma longest_first_before (l : list string) (r1 r2 : string) :
  longest_first l -> r1 ∈ l -> r2 ∈ l ->
  String.length r2 < String.length r1 ->
  appears_before r1 r2 l.
Proof.
  unfold longest_first. intros Hs H1 H2 Hlt.
  apply list_elem_of_split in H2 as (la & lb & ->).
  apply StronglySorted_app in Hs as (_ & _ & Hs).
  apply StronglySorted_cons in Hs as [Hr2 _].
  apply elem_of_app in H1 as [H1|H1].
  - apply list_elem_of_split in H1 as (l1 & l2 & ->).
    exists l1, l2, lb. by rewrite <- app_assoc.
  - apply elem_of_cons in H1 as [->|H1]; [lia|].
    rewrite Forall_forall in Hr2. specialize (Hr2 _ H1). cbn in Hr2. lia.
Qed.

(** C2.  In the registry [tree_to_repos] returns, the roots are listed by
    path length, longest first, each once; so of two roots of which one is a
    strict subdirectory of the other, the subdirectory comes first. *)
Theorem C2_deepest_first (fuel : nat) (w : World) (tree : TreeConfig)
    (reg : list (string * Vcs)) :
  tree_to_repos fuel w tree = Ok reg ->
  longest_first reg.*1
  /\ NoDup reg.*1
  /\ forall r1 r2, r1 ∈ reg.*1 -> r2 ∈ reg.*1 -> strict_subdir r1 r2 ->
       appears_before r1 r2 reg.*1.
Proof.
  intros H. destruct (tree_to_repos_keys _ _ _ _ H) as [sources ->].
  split; [apply sorted_by_len_reverse_sorted|]. split.
  - rewrite sorted_by_len_reverse_perm. apply NoDup_fst_map_to_list.
  - intros r1 r2 H1 H2 Hsub.
    apply longest_first_before; [apply sorted_by_len_reverse_sorted|done|done|].
    by apply strict_subdir_longer.
Qed.

Lemma C2_deepest_first_witness :
  let reg := VcsCache.repos nested_session in
  tree_to_repos 5 (nested_world github_ssh_origin) src_tree = Ok reg
  /\ appears_before "/src/a/b" "/src" reg.*1.
Proof.
  cbv zeta.
  assert (Hreg : tree_to_repos 5 (nested_world github_ssh_origin) src_tree
                 = Ok (VcsCache.repos nested_session)) by (vm_compute; reflexivity).
  split; [exact Hreg|].
  destruct (C2_deepest_first _ _ _ _ Hreg) as (_ & _ & Hbefore).
  apply Hbefore.
  - change ("/src/a/b" ∈ ["/src/a/b"; "/src/a"; "/src"]). repeat constructor.
  - change ("/src" ∈ ["/src/a/b"; "/src/a"; "/src"]). repeat constructor.
  - exists "a/b". split; [done|]. split; vm_compute; reflexivity.
Defined.

(** ** Claims during discovery *)

Lemma claim_vcs_source_root (vcs : VcsClass) (w : World) (path : string)
    (dirs dirs' : list string) (tree : TreeConfig) (a : Vcs) :
  claim_vcs_source vcs w path dirs tree = Ok (Some a, dirs') ->
  get_root_dir a = path.
Proof.
  destruct vcs; cbn; unfold as_vcs.
  - unfold Mercurial.claim_vcs_source, Mercurial.init.
    destruct (list_contains ".hg" dirs); cbn; [|done].
    destruct (hg_tip_node w path); cbn; try done.
    destruct (Mercurial.find_previous_revisions w path); cbn; try done.
    destruct (hg_upstream_url w path); cbn; try done.
    by intros [= <- _].
  - unfold Git.claim_vcs_source, Git.init.
    destruct (list_contains ".git" dirs); cbn; [|done].
    destruct (Git.invoke_vcs w ["ls-files"] path); cbn; try done.
    destruct (Git.invoke_vcs w ["rev-parse"; "HEAD"] path); cbn; try done.
    destruct (Git._construct_upstream_url w path) as [[up ws]| |]; cbn; try done.
    by intros [= <- _].
  - unfold Perforce.claim_vcs_source, Perforce.init.
    destruct (environ w !! "P4CONFIG"); cbn; [|done].
    destruct (Os.exists_ w _); cbn; [|done].
    destruct (p4_have w path); cbn; try done.
    by intros [= <- _].
Qed.

(** C3, as the module has it.  At a directory of the downward walk every
    class is asked, in the order Mercurial, Git, Perforce, whether or not an
    earlier one claimed the directory: Git is asked on the listing Mercurial
    left, Perforce on the listing Git left.  Each claim replaces the
    directory's entry, so the directory ends with the handle of the last
    class that claimed it; no other entry changes. *)
Theorem C3_last_claim_wins (w : World) (tree : TreeConfig) (cwd : string)
    (dirs dirs' : list string) (sources sources' : gmap string Vcs) :
  claim_down every_vcs w tree cwd dirs sources = Ok (sources', dirs') ->
  exists hg git p4 dirs1 dirs2,
    claim_vcs_source MercurialClass w cwd dirs tree = Ok (hg, dirs1)
    /\ claim_vcs_source GitClass w cwd dirs1 tree = Ok (git, dirs2)
    /\ claim_vcs_source PerforceClass w cwd dirs2 tree = Ok (p4, dirs')
    /\ sources' !! cwd = last_claim hg git p4 (sources !! cwd)
    /\ forall d, d ≠ cwd -> sources' !! d = sources !! d.
Proof.
  unfold every_vcs. cbn [claim_down]. intros H.
  destruct (claim_vcs_source MercurialClass w cwd dirs tree)
    as [[hg dirs1]| |] eqn:Hhg; cbn [mbind outcome_bind] in H; try done.
  destruct (claim_vcs_source GitClass w cwd dirs1 tree)
    as [[git dirs2]| |] eqn:Hgit; cbn [mbind outcome_bind] in H; try done.
  destruct (claim_vcs_source PerforceClass w cwd dirs2 tree)
    as [[p4 dirs3]| |] eqn:Hp4; cbn [mbind outcome_bind] in H; try done.
  injection H as <- <-.
  exists hg, git, p4, dirs1, dirs2. repeat (split; [done|]).
  assert (Hroot : forall vcs ds ds' a,
            claim_vcs_source vcs w cwd ds tree = Ok (Some a, ds') -> get_root_dir a = cwd)
    by (intros; by eapply claim_vcs_source_root).
  destruct hg as [a1|]; [rewrite (Hroot _ _ _ _ Hhg)|];
    (destruct git as [a2|]; [rewrite (Hroot _ _ _ _ Hgit)|]);
    (destruct p4 as [a3|]; [rewrite (Hroot _ _ _ _ Hp4)|]);
    cbn; split; try done; intros; by simplify_map_eq.
Qed.

Lemma C3_last_claim_wins_witness :
  exists hg git sources',
    claim_vcs_source MercurialClass both_world "/src" [".hg"; ".git"] src_tree
    = Ok (Some hg, [".git"])
    /\ claim_vcs_source GitClass both_world "/src" [".git"] src_tree = Ok (Some git, [])
    /\ claim_down every_vcs both_world src_tree "/src" [".hg"; ".git"] ∅ = Ok (sources', [])
    /\ sources' !! "/src" = Some git.
Proof.
  assert (Hrun : exists s, claim_down every_vcs both_world src_tree "/src"
                             [".hg"; ".git"] ∅ = Ok (s, []))
    by (vm_compute; eauto).
  destruct Hrun as [s Hrun].
  destruct (C3_last_claim_wins _ _ _ _ _ _ _ Hrun)
    as (hg & git & p4 & dirs1 & dirs2 & Hhg & Hgit & Hp4 & Hlast & _).
  assert (Hhg' : exists h, claim_vcs_source MercurialClass both_world "/src"
                             [".hg"; ".git"] src_tree = Ok (Some h, [".git"]))
    by (vm_compute; eauto).
  destruct Hhg' as [h1 Hh1]. rewrite Hh1 in Hhg. injection Hhg as <- <-.
  assert (Hgit' : exists h, claim_vcs_source GitClass both_world "/src"
                              [".git"] src_tree = Ok (Some h, []))
    by (vm_compute; eauto).
  destruct Hgit' as [h2 Hh2]. rewrite Hh2 in Hgit. injection Hgit as <- <-.
  assert (Hp4' : claim_vcs_source PerforceClass both_world "/src" [] src_tree = Ok (None, []))
    by (vm_compute; reflexivity).
  rewrite Hp4' in Hp4. injection Hp4 as <-.
  exists h1, h2, s. repeat split; try done.
Defined.

(** C3 as the spec words it fails: [/src] holds both [.hg] and [.git];
    Mercurial, first in the order, claims it, Git is asked all the same, and
    the registry maps [/src] to the Git handle. *)
Lemma C3_counterexample :
  Os.listdir both_world "/src" = Ok [".hg"; ".git"; "main.c"]
  /\ exists hg git,
       claim_vcs_source MercurialClass both_world "/src" [".hg"; ".git"] src_tree
       = Ok (Some (VMercurial hg), [".git"])
       /\ tree_to_repos 5 both_world src_tree = Ok [("/src", VGit git)].
Proof.
  split; [vm_compute; reflexivity|].
  eexists _, _. split; vm_compute; reflexivity.
Qed.

(** The upward walk asks the three classes in the same way. *)
Lemma claim_up_last_wins (w : World) (tree : TreeConfig) (directory : string)
    (sources sources' : gmap string Vcs) :
  claim_up every_vcs w tree directory sources = Ok sources' ->
  exists names hg git p4 d1 d2 d3,
    Os.listdir w directory = Ok names
    /\ claim_vcs_source MercurialClass w directory names tree = Ok (hg, d1)
    /\ claim_vcs_source GitClass w directory names tree = Ok (git, d2)
    /\ claim_vcs_source PerforceClass w directory names tree = Ok (p4, d3)
    /\ sources' = match p4, git, hg with
                  | Some h, _, _ | None, Some h, _ | None, None, Some h =>
                      <[directory := h]> sources
                  | None, None, None => sources
                  end.
Proof.
  unfold every_vcs. cbn [claim_up]. intros H.
  destruct (Os.listdir w directory) as [names| |]; cbn [mbind outcome_bind] in H; try done.
  destruct (claim_vcs_source MercurialClass w directory names tree)
    as [[hg d1]| |] eqn:Hhg; cbn [mbind outcome_bind] in H; try done.
  destruct (claim_vcs_source GitClass w directory names tree)
    as [[git d2]| |] eqn:Hgit; cbn [mbind outcome_bind] in H; try done.
  destruct (claim_vcs_source PerforceClass w directory names tree)
    as [[p4 d3]| |] eqn:Hp4; cbn [mbind outcome_bind] in H; try done.
  injection H as <-.
  exists names, hg, git, p4, d1, d2, d3. repeat (split; [done|]).
  destruct hg, git, p4; by rewrite ?insert_insert_eq.
Qed.

(** C10.  Without [P4CONFIG] in the environment the Perforce class claims
    no directory, whatever the directory holds; when it returns a handle,
    [P4CONFIG] is set and the path made of the directory and its value
    exists. *)
Theorem C10_perforce_needs_p4config (w : World) (path : string)
    (dirs : list string) (tree : TreeConfig) :
  (environ w !! "P4CONFIG" = None ->
   Perforce.claim_vcs_source w path dirs tree = Ok (None, dirs))
  /\ (forall h dirs',
        Perforce.claim_vcs_source w path dirs tree = Ok (Some h, dirs') ->
        exists p4config,
          environ w !! "P4CONFIG" = Some p4config
          /\ Os.exists_ w (PosixPath.join path p4config) = true).
Proof.
  unfold Perforce.claim_vcs_source. split.
  - by intros ->.
  - intros h dirs'. destruct (environ w !! "P4CONFIG") as [p4config|]; [|done].
    destruct (Os.exists_ w (PosixPath.join path p4config)) eqn:Hex; [|done].
    intros _. by exists p4config.
Qed.

Lemma C10_perforce_needs_p4config_witness :
  Perforce.claim_vcs_source plain_world "/etc" [] src_tree = Ok (None, [])
  /\ exists p4config,
       environ p4_world !! "P4CONFIG" = Some p4config
       /\ Os.exists_ p4_world (PosixPath.join "/depot" p4config) = true.
Proof.
  split.
  - apply (C10_perforce_needs_p4config plain_world "/etc" [] src_tree). reflexivity.
  - destruct (Perforce.claim_vcs_source p4_world "/depot" [] src_tree)
      as [[[h|] d]| |] eqn:Hrun; try (vm_compute in Hrun; discriminate).
    exact (proj2 (C10_perforce_needs_p4config p4_world "/depot" [] src_tree) h d Hrun).
Defined.

(** ** The containment test *)

Lemma split_no_sep (c : ascii) (s x : string) :
  x ∈ Py.split c s -> Py.startswith (String c "") x = false.
Proof.
  revert x. induction s as [|a s IH]; cbn; intros x Hx.
  - apply list_elem_of_singleton in Hx as ->. reflexivity.
  - destruct (Ascii.eqb_spec a c) as [->|Hne].
    + apply elem_of_cons in Hx as [->|Hx]; [reflexivity | by apply IH].
    + destruct (Py.split c s) as [|w ws] eqn:Hsp.
      * apply list_elem_of_singleton in Hx as ->. cbn.
        destruct (Ascii.ascii_dec c a) as [->|]; [done|]. reflexivity.
      * apply elem_of_cons in Hx as [->|Hx].
        -- cbn. destruct (Ascii.ascii_dec c a) as [->|]; [done|]. reflexivity.
        -- apply IH. by right.
Qed.

Lemma string_app_assoc (s1 s2 s3 : string) : (s1 +:+ s2) +:+ s3 = s1 +:+ s2 +:+ s3.
Proof.
  induction s1 as [|a s1 IH]; [done|].
  change ((String a s1 +:+ s2) +:+ s3) with (String a ((s1 +:+ s2) +:+ s3)).
  by rewrite IH.
Qed.

Lemma string_app_empty_r (s : string) : s +:+ "" = s.
Proof.
  induction s as [|a s IH]; [done|].
  change (String a s +:+ "") with (String a (s +:+ "")). by rewrite IH.
Qed.

Lemma prefix_iff (p s : string) :
  String.prefix p s = true <-> exists t, s = p +:+ t.
Proof.
  revert s. induction p as [|a p IH]; intros s.
  - split; [intros _; by exists s | intros _; by destruct s].
  - destruct s as [|b s]; cbn.
    + split; [done | by intros [t Ht]].
    + destruct (Ascii.ascii_dec a b) as [->|Hne].
      * rewrite IH. split; intros [t Ht]; exists t.
        -- by rewrite Ht.
        -- by injection Ht.
      * split; [done|]. intros [t Ht]. injection Ht as Hab _. congruence.
Qed.

Lemma join_extends (a b : string) :
  Py.startswith "/" b = false -> exists t, PosixPath.join a b = a +:+ t.
Proof.
  intros Hb. unfold PosixPath.join. rewrite Hb.
  destruct (_ || _); [by exists b | by exists ("/" +:+ b)].
Qed.

Lemma join_all_extends (p : list string) (a : string) :
  Forall (fun b => Py.startswith "/" b = false) p ->
  exists t, PosixPath.join_all a p = a +:+ t.
Proof.
  unfold PosixPath.join_all. intros Hp. revert a.
  induction Hp as [|b p Hb _ IH]; intros a; cbn.
  - exists "". by rewrite string_app_empty_r.
  - destruct (join_extends a b Hb) as [t ->].
    destruct (IH (a +:+ t)) as [t' ->].
    exists (t +:+ t'). apply string_app_assoc.
Qed.

Lemma rel_list_relative (cwd path start : string) :
  Forall (fun b => Py.startswith "/" b = false) (PosixPath.rel_list cwd path start).
Proof.
  unfold PosixPath.rel_list. apply Forall_app. split.
  - apply Forall_replicate. reflexivity.
  - apply Forall_drop. unfold PosixPath.components.
    apply Forall_forall. intros x Hx. apply list_elem_of_filter in Hx as [_ Hx].
    by apply (split_no_sep PosixPath.sep _ _ Hx).
Qed.

(** A root the test lets through does hold the path: the test errs on one
    side only. *)
Lemma passes_test_lies_within (w : World) (abs_path directory : string) :
  VcsCache.outside w abs_path directory = Ok false ->
  lies_within w abs_path directory = true.
Proof.
  unfold VcsCache.outside, PosixPath.relpath, lies_within.
  destruct (String.eqb abs_path ""); [done|].
  pose proof (rel_list_relative (getcwd w) abs_path directory) as Hrel.
  destruct (PosixPath.rel_list (getcwd w) abs_path directory) as [|a p]; [done|].
  cbn. intros [= Hout].
  destruct (String.eqb_spec a PosixPath.pardir) as [->|]; [|done].
  apply Forall_cons in Hrel as [_ Hp].
  destruct (join_all_extends p PosixPath.pardir Hp) as [t Ht].
  rewrite Ht in Hout. unfold Py.startswith in Hout.
  assert (String.prefix ".." (PosixPath.pardir +:+ t) = true) as Hpre
    by (apply prefix_iff; by exists t).
  congruence.
Qed.

(** A root the test turns down is passed over without asking its handle. *)
Lemma outside_root_not_asked (w : World) (abs_path directory : string)
    (vcs vcs' : Vcs) (rest : list (string * Vcs)) :
  VcsCache.outside w abs_path directory = Ok true ->
  VcsCache.scan w abs_path ((directory, vcs) :: rest) = VcsCache.scan w abs_path rest
  /\ VcsCache.scan w abs_path ((directory, vcs') :: rest)
     = VcsCache.scan w abs_path ((directory, vcs) :: rest).
Proof. intros H. cbn. by rewrite H. Qed.

Lemma dotdot_session_built : VcsCache.init 5 dotdot_world src_tree = Ok dotdot_session.
Proof. vm_compute. reflexivity. Qed.

(** C8 fails where a name begins with two dots: [/src/..cfg/x] is a file
    of the tree, below the root [/src], whose handle tracks it; its path from
    [/src] is [..cfg/x], which does not leave [/src] but begins with the two
    characters the test looks for, so the root is passed over and the path
    gets no handle. *)
Theorem C8_dotdot_name_taken_for_outside :
  let w := dotdot_world in
  let abs_path := abs_path_of dotdot_session "..cfg/x" in
  abs_path = "/src/..cfg/x"
  /\ Os.exists_ w abs_path = true
  /\ PosixPath.relpath (getcwd w) abs_path "/src" = Ok "..cfg/x"
  /\ lies_within w abs_path "/src" = true
  /\ VcsCache.outside w abs_path "/src" = Ok true
  /\ VcsCache.tracks w abs_path dotdot_handle = Ok true
  /\ (VcsCache.vcs_for_path w dotdot_session "..cfg/x").1 = Ok None.
Proof. cbv zeta. repeat split; vm_compute; reflexivity. Qed.

(** ** The upstream of a Git checkout *)

Lemma words_not_empty (line : string) (fields : list string) :
  Py.words line = fields -> fields ≠ [] -> String.eqb line "" = false.
Proof. intros <- H. destruct line; [done | reflexivity]. Qed.

Lemma upstream_of_lines_skip (before rest : list string) :
  Forall passed_over before ->
  Git.upstream_of_lines (before ++ rest) = Git.upstream_of_lines rest.
Proof.
  induction 1 as [|line before Hline _ IH]; [done|]. cbn.
  destruct Hline as [->|(name & repo & tag & Hw & Hne)]; [exact IH|].
  rewrite (words_not_empty line _ Hw) by done. rewrite Hw.
  apply String.eqb_neq in Hne. by rewrite Hne.
Qed.

Lemma prefix_app (p s : string) : String.prefix p (p +:+ s) = true.
Proof. apply prefix_iff. by exists s. Qed.

Lemma drop_app_add (p s : string) (n : nat) :
  Py.drop (String.length p + n) (p +:+ s) = Py.drop n s.
Proof. induction p as [|a p IH]; [done | exact IH]. Qed.

Lemma drop_app (p s : string) : Py.drop (String.length p) (p +:+ s) = s.
Proof.
  rewrite <- (Nat.add_0_r (String.length p)), drop_app_add. by destruct s.
Qed.

Lemma endswith_app (e p s : string) :
  String.length e <= String.length s ->
  Py.endswith e (p +:+ s) = Py.endswith e s.
Proof.
  intros Hle. unfold Py.endswith. rewrite string_length_app.
  replace (String.length p + String.length s - String.length e)
    with (String.length p + (String.length s - String.length e)) by lia.
  rewrite drop_app_add.
  destruct (Nat.leb_spec (String.length e) (String.length s)); [|lia].
  destruct (Nat.leb_spec (String.length e) (String.length p + String.length s)); [done|lia].
Qed.

(** C6, as the module has it.  Take a checkout where [git remote -v]
    prints, after lines that are empty or have three fields for a remote
    other than [origin], a line of three fields for [origin] with the URL
    [git@github.com:org/repo.git].  Its handle is constructed without a
    warning; its upstream base begins with [https://github.com/org/repo] and
    has no slash at its end; and each of the four methods that generate a
    URL returns the base followed by a segment that begins with the slash:
    [/commits/], [/commit/], [/blame/] or [/raw/]. *)
Theorem C6_github_ssh_origin (w : World) (root files rev out : string)
    (before after : list string) (line tag org repo : string) :
  Git.invoke_vcs w ["ls-files"] root = Ok files ->
  Git.invoke_vcs w ["rev-parse"; "HEAD"] root = Ok rev ->
  Git.invoke_vcs w ["remote"; "-v"] root = Ok out ->
  Py.split "010" out = before ++ line :: after ->
  Forall passed_over before ->
  Py.words line = ["origin"; "git@github.com:" +:+ org +:+ "/" +:+ repo +:+ ".git"; tag] ->
  exists h u,
    Git.init w root = Ok (h, [])
    /\ Git.upstream h = Some u
    /\ Py.startswith ("https://github.com/" +:+ org +:+ "/" +:+ repo) u = true
    /\ Py.endswith "/" u = false
    /\ forall path,
         Git.generate_log h path
         = Ok (u +:+ "/commits/" +:+ Git.revision h +:+ "/" +:+ path)
         /\ Git.generate_diff h path = Ok (u +:+ "/commit/" +:+ Git.revision h)
         /\ Git.generate_blame h path
            = Ok (u +:+ "/blame/" +:+ Git.revision h +:+ "/" +:+ path)
         /\ Git.generate_raw h path
            = Ok (u +:+ "/raw/" +:+ Git.revision h +:+ "/" +:+ path).
Proof.
  intros Hfiles Hrev Hout Hsplit Hbefore Hline.
  unfold Git.init, Git._construct_upstream_url.
  rewrite Hfiles, Hrev, Hout. cbn [mbind outcome_bind].
  rewrite Hsplit, (upstream_of_lines_skip _ _ Hbefore). cbn [Git.upstream_of_lines].
  rewrite (words_not_empty line _ Hline) by done. rewrite Hline.
  cbn [String.eqb Ascii.eqb Bool.eqb].
  unfold Py.startswith at 1. rewrite prefix_app.
  rewrite (drop_app "git@github.com:").
  eexists _, _. split; [reflexivity|]. split; [reflexivity|]. split; [|split].
  - unfold Py.startswith. apply prefix_iff. exists ".git".
    by rewrite !string_app_assoc.
  - rewrite <- !string_app_assoc. by rewrite endswith_app by (cbn; lia).
  - intros path. by repeat split.
Qed.

Lemma C6_github_ssh_origin_witness :
  exists h u,
    Git.init (nested_world github_ssh_origin) "/src" = Ok (h, [])
    /\ Git.upstream h = Some u
    /\ Py.startswith ("https://github.com/" +:+ "org" +:+ "/" +:+ "repo") u = true
    /\ Py.endswith "/" u = false
    /\ forall path,
         Git.generate_log h path
         = Ok (u +:+ "/commits/" +:+ Git.revision h +:+ "/" +:+ path)
         /\ Git.generate_diff h path = Ok (u +:+ "/commit/" +:+ Git.revision h)
         /\ Git.generate_blame h path
            = Ok (u +:+ "/blame/" +:+ Git.revision h +:+ "/" +:+ path)
         /\ Git.generate_raw h path
            = Ok (u +:+ "/raw/" +:+ Git.revision h +:+ "/" +:+ path).
Proof.
  apply (C6_github_ssh_origin (nested_world github_ssh_origin) "/src"
           ("a/b/f.c" +:+ lf) ("def4567890abcdef0123" +:+ lf)
           ("origin" +:+ tab +:+ github_ssh_origin +:+ " (fetch)" +:+ lf
            +:+ "origin" +:+ tab +:+ github_ssh_origin +:+ " (push)" +:+ lf)
           []
           ["origin" +:+ tab +:+ github_ssh_origin +:+ " (push)"; ""]
           ("origin" +:+ tab +:+ github_ssh_origin +:+ " (fetch)")
           "(fetch)" "org" "repo").
  - vm_compute; reflexivity.
  - vm_compute; reflexivity.
  - vm_compute; reflexivity.
  - vm_compute; reflexivity.
  - constructor.
  - vm_compute; reflexivity.
Defined.

(** C6 as the spec words it fails: the suffix stays and no slash is put
    at the end. *)
Lemma C6_counterexample :
  exists h,
    Git.init (nested_world "git@github.com:org/repo.git") "/src" = Ok (h, [])
    /\ Git.upstream h = Some "https://github.com/org/repo.git"
    /\ Git.upstream h ≠ Some "https://github.com/org/repo/".
Proof.
  eexists. split; [vm_compute; reflexivity|]. split; [reflexivity|]. cbn. discriminate.
Qed.

(** When the line for [origin] has three fields and its URL is of none of
    the known forms, the handle is still constructed, with one warning, and
    the claim of the directory returns it; its upstream is [None], so each of
    the four methods that generate a URL raises [TypeError] (unsupported
    operand types) instead of returning a URL, while the tracked-file test
    and the revision label work as for any other handle. *)
Lemma three_field_unrecognized_origin_degrades (w : World) (root files rev out : string)
    (before after : list string) (line tag repo : string)
    (dirs : list string) (tree : TreeConfig) :
  Git.invoke_vcs w ["ls-files"] root = Ok files ->
  Git.invoke_vcs w ["rev-parse"; "HEAD"] root = Ok rev ->
  Git.invoke_vcs w ["remote"; "-v"] root = Ok out ->
  Py.split "010" out = before ++ line :: after ->
  Forall passed_over before ->
  Py.words line = ["origin"; repo; tag] ->
  unrecognized repo ->
  list_contains ".git" dirs = true ->
  exists h,
    Git.init w root = Ok (h, [Git.unsupported_remote_warning])
    /\ Git.claim_vcs_source w root dirs tree = Ok (Some h, list_remove_first ".git" dirs)
    /\ claim_vcs_source GitClass w root dirs tree
       = Ok (Some (VGit h), list_remove_first ".git" dirs)
    /\ Git.upstream h = None
    /\ (forall path,
          Git.generate_log h path = Raise TypeError
          /\ Git.generate_diff h path = Raise TypeError
          /\ Git.generate_blame h path = Raise TypeError
          /\ Git.generate_raw h path = Raise TypeError)
    /\ (forall path,
          Git.is_tracked h path = bool_decide (path ∈ Py.splitlines files)
          /\ Git.display_rev h path = Py.take 10 (Py.strip rev)).
Proof.
  intros Hfiles Hrev Hout Hsplit Hbefore Hline (Hssh & Hgit & Hhttps) Hdirs.
  assert (Hinit : Git.init w root
                  = Ok ({| Git.root := root;
                           Git.tracked_files := list_to_set (Py.splitlines files);
                           Git.revision := Py.strip rev;
                           Git.upstream := None |}, [Git.unsupported_remote_warning])).
  { unfold Git.init, Git._construct_upstream_url.
    rewrite Hfiles, Hrev, Hout. cbn [mbind outcome_bind].
    rewrite Hsplit, (upstream_of_lines_skip _ _ Hbefore). cbn [Git.upstream_of_lines].
    rewrite (words_not_empty line _ Hline) by done. rewrite Hline.
    cbn [String.eqb Ascii.eqb Bool.eqb].
    by rewrite Hssh, Hgit, Hhttps. }
  eexists. split; [exact Hinit|].
  assert (Hclaim : Git.claim_vcs_source w root dirs tree
                   = Ok (Some {| Git.root := root;
                                 Git.tracked_files := list_to_set (Py.splitlines files);
                                 Git.revision := Py.strip rev;
                                 Git.upstream := None |},
                         list_remove_first ".git" dirs)).
  { unfold Git.claim_vcs_source. by rewrite Hdirs, Hinit. }
  split; [exact Hclaim|]. split.
  { cbn. unfold as_vcs. by rewrite Hclaim. }
  split; [reflexivity|]. split.
  - intros path. by repeat split.
  - intros path. split; [|reflexivity].
    unfold Git.is_tracked. cbn. apply bool_decide_ext. set_solver.
Qed.

Lemma three_field_unrecognized_origin_degrades_at_bitbucket :
  exists h,
    Git.init (nested_world other_origin) "/src" = Ok (h, [Git.unsupported_remote_warning])
    /\ Git.claim_vcs_source (nested_world other_origin) "/src" [".git"; "a"] src_tree
       = Ok (Some h, ["a"])
    /\ Git.generate_raw h "a/b/f.c" = Raise TypeError
    /\ Git.is_tracked h "a/b/f.c" = true.
Proof.
  destruct (three_field_unrecognized_origin_degrades (nested_world other_origin) "/src"
           ("a/b/f.c" +:+ lf) ("def4567890abcdef0123" +:+ lf)
           ("origin" +:+ tab +:+ other_origin +:+ " (fetch)" +:+ lf
            +:+ "origin" +:+ tab +:+ other_origin +:+ " (push)" +:+ lf)
           []
           ["origin" +:+ tab +:+ other_origin +:+ " (push)"; ""]
           ("origin" +:+ tab +:+ other_origin +:+ " (fetch)")
           "(fetch)" other_origin [".git"; "a"] src_tree)
    as (h & Hinit & Hclaim & _ & _ & Hgen & Hrest).
  - vm_compute; reflexivity.
  - vm_compute; reflexivity.
  - vm_compute; reflexivity.
  - vm_compute; reflexivity.
  - constructor.
  - vm_compute; reflexivity.
  - repeat split; vm_compute; reflexivity.
  - reflexivity.
  - exists h. split; [exact Hinit|]. split; [exact Hclaim|]. split.
    + apply Hgen.
    + rewrite (proj1 (Hrest "a/b/f.c")). vm_compute. reflexivity.
Defined.

(** C7 fails for an [origin] whose URL holds a space.  The remote
    [/home/me/my repo] is of none of the known forms, but its line of
    [git remote -v] has four fields, and the loop unpacks a line into three
    names before it looks at the URL: [ValueError] is raised, no warning is
    issued, no handle is constructed, the claim of the directory raises, and
    discovery raises with it. *)
Theorem C7_origin_with_space_aborts (fuel : nat) :
  let w := remotes_world (remote_lines "origin" "/home/me/my repo") in
  unrecognized "/home/me/my repo"
  /\ Git.invoke_vcs w ["remote"; "-v"] "/src"
     = Ok ("origin" +:+ tab +:+ "/home/me/my repo (fetch)" +:+ lf
           +:+ "origin" +:+ tab +:+ "/home/me/my repo (push)" +:+ lf)
  /\ Py.words ("origin" +:+ tab +:+ "/home/me/my repo (fetch)")
     = ["origin"; "/home/me/my"; "repo"; "(fetch)"]
  /\ Git._construct_upstream_url w "/src" = Raise ValueError
  /\ Git.init w "/src" = Raise ValueError
  /\ Git.claim_vcs_source w "/src" [".git"] src_tree = Raise ValueError
  /\ tree_to_repos fuel w src_tree = Raise ValueError.
Proof.
  cbv zeta. repeat split; vm_compute; reflexivity.
Qed.

(** ** The upward walk *)

Lemma plain_root_unclaimed (directory : string) (sources : gmap string Vcs) :
  Os.listdir plain_world directory = Ok ["etc"] ->
  claim_up every_vcs plain_world double_slash_tree directory sources = Ok sources.
Proof.
  intros Hls. unfold every_vcs. cbn [claim_up]. rewrite Hls. reflexivity.
Qed.

Lemma double_slash_stuck (fuel : nat) (sources : gmap string Vcs) :
  sources !! "//" = None ->
  walk_up fuel plain_world double_slash_tree "//" sources = OutOfFuel.
Proof.
  intros Hs. induction fuel as [|fuel IH]; cbn [walk_up].
  - by rewrite bool_decide_true.
  - rewrite bool_decide_true by done. cbn [negb andb String.eqb Ascii.eqb].
    change (PosixPath.dirname "//") with "//".
    rewrite plain_root_unclaimed by reflexivity. exact IH.
Qed.

(** C9 fails on a tree root written with two leading slashes: [/etc] is
    under no version control and neither is [/]; from [//etc] the walk
    reaches [//], which is not ['/'], and [dirname('//')] is [//] again, so
    no number of turns ends the loop. *)
Theorem C9_double_slash_walk_never_ends (fuel : nat) :
  PosixPath.dirname "//etc" = "//"
  /\ PosixPath.dirname "//" = "//"
  /\ tree_to_repos fuel plain_world double_slash_tree = OutOfFuel.
Proof.
  split; [reflexivity|]. split; [reflexivity|].
  unfold tree_to_repos.
  change (walk_from plain_world double_slash_tree (source_folder double_slash_tree) ∅)
    with (Ok (∅ : gmap string Vcs)).
  cbn [mbind outcome_bind source_folder double_slash_tree].
  destruct fuel as [|fuel]; [reflexivity|].
  cbn [walk_up]. rewrite bool_decide_true by done.
  change (PosixPath.dirname "//etc") with "//".
  change (negb (String.eqb "//etc" "/") && true) with true. cbv iota.
  rewrite plain_root_unclaimed by reflexivity.
  cbn [mbind outcome_bind].
  by rewrite double_slash_stuck.
Qed.

(** ** The upward walk ends *)

Lemma string_app_cons (a : ascii) (s t : string) : String a s +:+ t = String a (s +:+ t).
Proof. reflexivity. Qed.

Lemma take_length_le (n : nat) (s : string) : String.length (Py.take n s) <= String.length s.
Proof.
  revert n. induction s as [|a s IH]; intros [|n]; cbn; try lia.
  specialize (IH n). lia.
Qed.

Lemma take_after_last_ends (c : ascii) (s : string) :
  0 < Py.after_last c s ->
  exists u, Py.take (Py.after_last c s) s = u +:+ String c "".
Proof.
  induction s as [|a s IH]; cbn; [lia|].
  destruct (Py.after_last c s) as [|k] eqn:Hk.
  - destruct (Ascii.eqb_spec a c) as [->|]; [|lia]. intros _. by exists "".
  - intros _. destruct IH as [u Hu]; [lia|]. cbn in Hu.
    exists (String a u). cbn. by rewrite Hu.
Qed.

Lemma rstrip_snoc (c : ascii) (u : string) :
  Py.rstrip c (u +:+ String c "") = Py.rstrip c u.
Proof.
  induction u as [|a u IH].
  - change (Py.rstrip c ("" +:+ String c ""))
      with (if Ascii.eqb c c then EmptyString else String c EmptyString).
    by rewrite Ascii.eqb_refl.
  - rewrite string_app_cons. cbn [Py.rstrip]. by rewrite IH.
Qed.

Lemma rstrip_length_le (c : ascii) (s : string) :
  String.length (Py.rstrip c s) <= String.length s.
Proof.
  induction s as [|a s IH]; cbn; [lia|].
  destruct (Py.rstrip c s); [destruct (Ascii.eqb a c)|]; cbn in *; lia.
Qed.

Lemma rstrip_keeps_head (c a : ascii) (s : string) :
  a ≠ c -> exists t, Py.rstrip c (String a s) = String a t.
Proof.
  intros Hne. cbn. destruct (Py.rstrip c s) as [|b t].
  - destruct (Ascii.eqb_spec a c); [done|]. by exists "".
  - by exists (String b t).
Qed.

Lemma single_slash_inv (d : string) :
  single_slash d ->
  exists rest, d = String "/" rest
               /\ (rest = "" \/ exists a r, rest = String a r /\ a ≠ "/"%char).
Proof.
  intros [H1 H2]. apply prefix_iff in H1 as [rest ->].
  exists rest. split; [done|].
  destruct rest as [|a r]; [by left|]. right. exists a, r. split; [done|].
  intros ->. assert (Py.startswith "//" ("/" +:+ String "/" r) = true) as H
    by (apply prefix_iff; by exists r).
  congruence.
Qed.

Lemma single_slash_intro (a : ascii) (r : string) :
  a ≠ "/"%char -> single_slash (String "/" (String a r)).
Proof.
  intros Ha. split.
  - apply prefix_iff. by exists (String a r).
  - destruct (Py.startswith "//" (String "/" (String a r))) eqn:H; [|done].
    apply prefix_iff in H as [t Ht]. injection Ht as Ht _. by destruct Ha.
Qed.

Lemma single_slash_root : single_slash "/".
Proof. by split. Qed.

(** [dirname] of a path with one leading slash, other than [/], is a
    shorter path of the same kind. *)
Lemma dirname_single_slash (d0 : string) :
  single_slash d0 -> d0 ≠ "/" ->
  single_slash (PosixPath.dirname d0)
  /\ String.length (PosixPath.dirname d0) < String.length d0.
Proof.
  intros Hd Hne.
  destruct (single_slash_inv d0 Hd) as (rest & -> & [->|(a & d & -> & Ha)]); [done|].
  clear Hd Hne.
  assert (Ascii.eqb a PosixPath.sep = false) as Hab by (by apply Ascii.eqb_neq).
  unfold PosixPath.dirname.
  pose proof (take_after_last_ends PosixPath.sep (String "/" (String a d))) as Hend.
  change (Py.after_last PosixPath.sep (String "/" (String a d)))
    with (match Py.after_last PosixPath.sep (String a d) with
          | O => 1 | S k => S (S k) end) in *.
  destruct (Py.after_last PosixPath.sep (String a d)) as [|k] eqn:Hk.
  - change (Py.take 1 (String "/" (String a d))) with "/".
    cbn [String.eqb Py.all_char negb andb]. split; [apply single_slash_root | cbn; lia].
  - destruct Hend as [u Hu]; [lia|].
    pose proof (take_length_le k d) as Hlen.
    change (Py.take (S (S k)) (String "/" (String a d)))
      with (String "/" (String a (Py.take k d))) in *.
    assert (negb (String.eqb (String "/" (String a (Py.take k d))) "")
            && negb (Py.all_char PosixPath.sep (String "/" (String a (Py.take k d))))
            = true) as ->.
    { change (Py.all_char PosixPath.sep (String "/" (String a (Py.take k d))))
        with (Ascii.eqb "/" PosixPath.sep
              && (Ascii.eqb a PosixPath.sep && Py.all_char PosixPath.sep (Py.take k d))).
      rewrite Hab. reflexivity. }
    assert (String.length (Py.rstrip PosixPath.sep (String "/" (String a (Py.take k d))))
            < String.length (String "/" (String a d))) as Hshort.
    { rewrite Hu, rstrip_snoc.
      pose proof (rstrip_length_le PosixPath.sep u) as Hr.
      apply (f_equal String.length) in Hu. rewrite string_length_app in Hu.
      cbn [String.length] in *. lia. }
    split; [|exact Hshort].
    destruct (rstrip_keeps_head PosixPath.sep a (Py.take k d) Ha) as [t Ht].
    assert (Py.rstrip PosixPath.sep (String "/" (String a (Py.take k d)))
            = String "/" (String a t)) as ->.
    { change (Py.rstrip PosixPath.sep (String "/" (String a (Py.take k d))))
        with (match Py.rstrip PosixPath.sep (String a (Py.take k d)) with
              | EmptyString =>
                  if Ascii.eqb "/" PosixPath.sep then EmptyString else String "/" EmptyString
              | t => String "/" t
              end).
      by rewrite Ht. }
    by apply single_slash_intro.
Qed.

(** ** Which calls can fail to finish *)

Lemma bind_finishes {A B : Type} (m : outcome A) (k : A -> outcome B) :
  m ≠ OutOfFuel -> (forall a, k a ≠ OutOfFuel) -> (m ≫= k) ≠ OutOfFuel.
Proof. destruct m; cbn; [auto | done | done]. Qed.

Lemma call_finishes {A : Type} (r : result A) : call r ≠ OutOfFuel.
Proof. by destruct r. Qed.

Lemma previous_of_lines_finishes (lines : list string) (acc : gmap string string) :
  Mercurial.previous_of_lines lines acc ≠ OutOfFuel.
Proof.
  revert acc. induction lines as [|line rest IH]; intros acc; cbn; [done|].
  repeat case_match; try done; apply IH.
Qed.

Lemma mercurial_claim_finishes (w : World) (path : string) (dirs : list string)
    (tree : TreeConfig) :
  Mercurial.claim_vcs_source w path dirs tree ≠ OutOfFuel.
Proof.
  unfold Mercurial.claim_vcs_source, Mercurial.init, Mercurial.find_previous_revisions.
  destruct (list_contains ".hg" dirs); [|done].
  repeat (apply bind_finishes; [|intros ?]);
    try apply call_finishes; try apply previous_of_lines_finishes; done.
Qed.

Lemma upstream_of_lines_finishes (lines : list string) :
  Git.upstream_of_lines lines ≠ OutOfFuel.
Proof.
  induction lines as [|line rest IH]; cbn; [done|]. repeat case_match; done.
Qed.

Lemma git_claim_finishes (w : World) (path : string) (dirs : list string)
    (tree : TreeConfig) :
  Git.claim_vcs_source w path dirs tree ≠ OutOfFuel.
Proof.
  unfold Git.claim_vcs_source, Git.init, Git._construct_upstream_url, Git.invoke_vcs.
  destruct (list_contains ".git" dirs); [|done].
  repeat (apply bind_finishes; [|intros ?]);
    try apply call_finishes; try apply upstream_of_lines_finishes;
    repeat case_match; done.
Qed.

Lemma perforce_claim_finishes (w : World) (path : string) (dirs : list string)
    (tree : TreeConfig) :
  Perforce.claim_vcs_source w path dirs tree ≠ OutOfFuel.
Proof.
  unfold Perforce.claim_vcs_source, Perforce.init.
  destruct (environ w !! "P4CONFIG") as [p4config|]; [|done].
  destruct (Os.exists_ w (PosixPath.join path p4config)); [|done].
  repeat (apply bind_finishes; [|intros ?]); try apply call_finishes; done.
Qed.

Lemma claim_vcs_source_finishes (vcs : VcsClass) (w : World) (path : string)
    (dirs : list string) (tree : TreeConfig) :
  claim_vcs_source vcs w path dirs tree ≠ OutOfFuel.
Proof.
  destruct vcs; cbn [claim_vcs_source]; unfold as_vcs;
    (apply bind_finishes; [|by intros []]).
  - apply mercurial_claim_finishes.
  - apply git_claim_finishes.
  - apply perforce_claim_finishes.
Qed.

Lemma claim_down_finishes (classes : list VcsClass) (w : World) (tree : TreeConfig)
    (cwd : string) (dirs : list string) (sources : gmap string Vcs) :
  claim_down classes w tree cwd dirs sources ≠ OutOfFuel.
Proof.
  revert dirs sources. induction classes as [|vcs rest IH]; intros dirs sources; [done|].
  cbn [claim_down]. apply bind_finishes; [apply claim_vcs_source_finishes|].
  intros [attempt dirs']. apply IH.
Qed.

Lemma listdir_finishes (w : World) (path : string) : Os.listdir w path ≠ OutOfFuel.
Proof. unfold Os.listdir. repeat case_match; done. Qed.

Lemma claim_up_finishes (classes : list VcsClass) (w : World) (tree : TreeConfig)
    (directory : string) (sources : gmap string Vcs) :
  claim_up classes w tree directory sources ≠ OutOfFuel.
Proof.
  revert sources. induction classes as [|vcs rest IH]; intros sources; [done|].
  cbn [claim_up]. apply bind_finishes; [apply listdir_finishes|]. intros names.
  apply bind_finishes; [apply claim_vcs_source_finishes|].
  intros [attempt dirs']. apply IH.
Qed.

Lemma ordered_finishes (sources : gmap string Vcs) (l : list string) :
  ordered sources l ≠ OutOfFuel.
Proof.
  induction l as [|k l IH]; [done|]. cbn [ordered].
  apply bind_finishes; [unfold getitem; by case_match|]. intros v.
  apply bind_finishes; [exact IH | done].
Qed.

(** Induction on trees, with the property known for the entries of a
    directory. *)
Lemma node_nested_ind (P : node -> Prop) :
  (forall name, P (File name)) ->
  (forall name entries, Forall P entries -> P (Dir name entries)) ->
  forall n, P n.
Proof.
  intros Hfile Hdir. fix IH 1. intros [name|name entries].
  - apply Hfile.
  - apply Hdir. induction entries as [|e entries IHe]; constructor.
    + apply IH.
    + exact IHe.
Qed.

(** The descent of [walk] into the children of a directory. *)
Lemma walk_children_step (w : World) (tree : TreeConfig) (top : string)
    (dirs : list string) (entries : list node) (acc : outcome (gmap string Vcs))
    (P : outcome (gmap string Vcs) -> Prop) :
  Forall (fun child => forall top' s, P (Ok s) -> P (walk w tree top' child s)) entries ->
  (forall e, P (Raise e)) ->
  P acc ->
  P (fold_left
       (fun acc child =>
          match child with
          | Dir name _ =>
              if list_contains name dirs
              then sources ← acc; walk w tree (PosixPath.join top name) child sources
              else acc
          | File _ => acc
          end)
       entries acc).
Proof.
  intros Hch Hraise. revert acc.
  induction Hch as [|child entries Hchild _ IH]; intros acc Hacc; [done|].
  cbn [fold_left]. apply IH.
  destruct child as [name|name sub]; [done|].
  destruct (list_contains name dirs); [|done].
  destruct acc as [s|e|]; cbn [mbind outcome_bind]; [by apply Hchild | apply Hraise | done].
Qed.

Lemma walk_dir_eq (w : World) (tree : TreeConfig) (top name : string)
    (entries : list node) (sources : gmap string Vcs) :
  walk w tree top (Dir name entries) sources
  = claim_down every_vcs w tree top (Os.subdirs entries) sources
    ≫= fun '(sources, dirs) =>
         fold_left
           (fun acc child =>
              match child with
              | Dir name _ =>
                  if list_contains name dirs
                  then sources ← acc; walk w tree (PosixPath.join top name) child sources
                  else acc
              | File _ => acc
              end)
           entries (Ok sources).
Proof. reflexivity. Qed.

(** What holds of the dictionary before the downward walk and is kept by
    the three claims at a directory holds of the outcome of the walk. *)
Lemma walk_invariant (w : World) (tree : TreeConfig)
    (Q : outcome (gmap string Vcs) -> Prop) :
  (forall e, Q (Raise e)) ->
  (forall top dirs s s' dirs',
     Q (Ok s) -> claim_down every_vcs w tree top dirs s = Ok (s', dirs') -> Q (Ok s')) ->
  forall n top s, Q (Ok s) -> Q (walk w tree top n s).
Proof.
  intros Hraise Hclaim n.
  induction n as [name|name entries IH] using node_nested_ind; intros top s Hs; [done|].
  rewrite walk_dir_eq.
  pose proof (claim_down_finishes every_vcs w tree top (Os.subdirs entries) s) as Hfin.
  destruct (claim_down every_vcs w tree top (Os.subdirs entries) s)
    as [[s1 dirs1]|e|] eqn:Hcd; cbn [mbind outcome_bind]; [|apply Hraise|done].
  apply walk_children_step; [|exact Hraise|by eapply Hclaim].
  eapply Forall_impl; [exact IH|]. cbn. auto.
Qed.

Lemma walk_finishes (w : World) (tree : TreeConfig) (n : node) (top : string)
    (s : gmap string Vcs) :
  walk w tree top n s ≠ OutOfFuel.
Proof. by apply (walk_invariant w tree (fun o => o ≠ OutOfFuel)). Qed.

Lemma walk_from_finishes (w : World) (tree : TreeConfig) (top : string)
    (s : gmap string Vcs) :
  walk_from w tree top s ≠ OutOfFuel.
Proof. unfold walk_from. case_match; [apply walk_finishes | done]. Qed.

Lemma walk_up_unfold (fuel : nat) (w : World) (tree : TreeConfig)
    (directory : string) (sources : gmap string Vcs) :
  walk_up (S fuel) w tree directory sources
  = if negb (String.eqb directory "/") && bool_decide (sources !! directory = None)
    then claim_up every_vcs w tree (PosixPath.dirname directory) sources
         ≫= walk_up fuel w tree (PosixPath.dirname directory)
    else Ok sources.
Proof. reflexivity. Qed.

Lemma walk_up_finishes (fuel : nat) (w : World) (tree : TreeConfig)
    (directory : string) (sources : gmap string Vcs) :
  single_slash directory ->
  String.length directory <= fuel ->
  walk_up fuel w tree directory sources ≠ OutOfFuel.
Proof.
  revert directory sources.
  induction fuel as [|fuel IH]; intros directory sources Hd Hlen.
  - destruct (single_slash_inv _ Hd) as (rest & -> & _). cbn in Hlen. lia.
  - rewrite walk_up_unfold.
    destruct (String.eqb_spec directory "/") as [->|Hne]; [done|].
    cbn [negb andb]. case_bool_decide; [|done].
    destruct (dirname_single_slash directory Hd Hne) as [Hd' Hshort].
    apply bind_finishes; [apply claim_up_finishes|].
    intros s'. apply IH; [done | lia].
Qed.

Lemma walk_up_more_fuel (fuel extra : nat) (w : World) (tree : TreeConfig)
    (directory : string) (sources : gmap string Vcs) :
  walk_up fuel w tree directory sources ≠ OutOfFuel ->
  walk_up (fuel + extra) w tree directory sources = walk_up fuel w tree directory sources.
Proof.
  revert directory sources.
  induction fuel as [|fuel IH]; intros directory sources.
  - destruct extra as [|extra]; [done|].
    change (0 + S extra) with (S extra). rewrite walk_up_unfold. cbn [walk_up].
    by destruct (negb (String.eqb directory "/") && bool_decide (sources !! directory = None)).
  - change (S fuel + extra) with (S (fuel + extra)). rewrite !walk_up_unfold.
    destruct (negb (String.eqb directory "/") && bool_decide (sources !! directory = None));
      [|done].
    destruct (claim_up every_vcs w tree (PosixPath.dirname directory) sources)
      as [s'|e|]; cbn [mbind outcome_bind]; try done.
    apply IH.
Qed.

(** ** Discovery as a whole *)

(** X1.  For a tree root written with one leading slash, discovery ends:
    the upward loop takes at most as many turns as the root has characters,
    so with that much fuel [tree_to_repos] returns or raises, and more fuel
    does not change what it gives. *)
Theorem discovery_ends_for_single_slash_root (fuel fuel' : nat) (w : World)
    (tree : TreeConfig) :
  single_slash (source_folder tree) ->
  String.length (source_folder tree) <= fuel ->
  fuel <= fuel' ->
  tree_to_repos fuel w tree ≠ OutOfFuel
  /\ tree_to_repos fuel' w tree = tree_to_repos fuel w tree.
Proof.
  intros Hroot Hlen Hmore. unfold tree_to_repos.
  pose proof (walk_from_finishes w tree (source_folder tree) ∅) as Hdown.
  destruct (walk_from w tree (source_folder tree) ∅) as [s1|e|];
    cbn [mbind outcome_bind]; [|done|done].
  pose proof (walk_up_finishes fuel w tree (source_folder tree) s1 Hroot Hlen) as Hup.
  replace fuel' with (fuel + (fuel' - fuel)) by lia.
  rewrite (walk_up_more_fuel _ _ _ _ _ _ Hup). split; [|done].
  apply bind_finishes; [done|]. intros s2. apply ordered_finishes.
Qed.

Lemma discovery_ends_for_single_slash_root_witness :
  tree_to_repos 4 (nested_world github_ssh_origin) src_tree ≠ OutOfFuel
  /\ tree_to_repos 9 (nested_world github_ssh_origin) src_tree
     = tree_to_repos 4 (nested_world github_ssh_origin) src_tree.
Proof.
  apply discovery_ends_for_single_slash_root.
  - split; reflexivity.
  - cbn. lia.
  - lia.
Defined.

Lemma claim_up_shape (w : World) (tree : TreeConfig) (directory : string)
    (sources sources' : gmap string Vcs) :
  claim_up every_vcs w tree directory sources = Ok sources' ->
  sources' = sources
  \/ exists h, sources' = <[directory := h]> sources /\ get_root_dir h = directory.
Proof.
  intros H.
  destruct (claim_up_last_wins _ _ _ _ _ H)
    as (names & hg & git & p4 & d1 & d2 & d3 & _ & Hhg & Hgit & Hp4 & ->).
  destruct p4 as [h|]; [right; exists h; split; [done|]; by eapply claim_vcs_source_root|].
  destruct git as [h|]; [right; exists h; split; [done|]; by eapply claim_vcs_source_root|].
  destruct hg as [h|]; [right; exists h; split; [done|]; by eapply claim_vcs_source_root|].
  by left.
Qed.

(** X2.  The upward walk adds at most one root, an ancestor named by
    applying [dirname] to the tree root one or more times, and stops there;
    the entries the dictionary had are otherwise left as they were. *)
Theorem upward_walk_adds_at_most_one_root (fuel : nat) (w : World) (tree : TreeConfig)
    (directory : string) (sources sources' : gmap string Vcs) :
  walk_up fuel w tree directory sources = Ok sources' ->
  sources' = sources
  \/ exists k h,
       sources' = <[Nat.iter (S k) PosixPath.dirname directory := h]> sources
       /\ get_root_dir h = Nat.iter (S k) PosixPath.dirname directory.
Proof.
  revert directory sources.
  induction fuel as [|fuel IH]; intros directory sources H.
  - cbn [walk_up] in H.
    destruct (negb (String.eqb directory "/") && bool_decide (sources !! directory = None));
      [done|]. left. by injection H.
  - rewrite walk_up_unfold in H.
    destruct (negb (String.eqb directory "/") && bool_decide (sources !! directory = None));
      [|left; by injection H].
    destruct (claim_up every_vcs w tree (PosixPath.dirname directory) sources)
      as [s1|e|] eqn:Hclaim; cbn [mbind outcome_bind] in H; try done.
    destruct (claim_up_shape _ _ _ _ _ Hclaim) as [->|(h & -> & Hroot)].
    + destruct (IH _ _ H) as [->|(k & h & -> & Hroot)]; [by left|].
      right. exists (S k), h. by rewrite <- !Nat.iter_succ_r in *.
    + right. exists 0, h. split; [|done].
      destruct fuel; cbn [walk_up] in H;
        rewrite lookup_insert_eq, bool_decide_false, andb_false_r in H by done;
        by injection H.
Qed.

Lemma upward_walk_adds_at_most_one_root_witness :
  exists h,
    walk_up 9 docs_world docs_tree "/src/docs" ∅ = Ok {[ "/src" := h ]}
    /\ get_root_dir h = "/src".
Proof.
  assert (Hrun : exists h, walk_up 9 docs_world docs_tree "/src/docs" ∅
                           = Ok (<["/src" := h]> ∅))
    by (vm_compute; eauto).
  destruct Hrun as [h0 Hrun].
  destruct (upward_walk_adds_at_most_one_root _ _ _ _ _ _ Hrun)
    as [Hsame|(k & h & Hins & Hroot)].
  - exfalso. apply (f_equal (fun m => m !! "/src")) in Hsame.
    rewrite lookup_insert_eq, lookup_empty in Hsame. discriminate.
  - exists h0. split; [exact Hrun|].
    apply (f_equal (fun m => m !! "/src")) in Hins.
    rewrite lookup_insert_eq in Hins.
    destruct (decide (Nat.iter (S k) PosixPath.dirname "/src/docs" = "/src")) as [Heq|Hne].
    + rewrite Heq, lookup_insert_eq in Hins. injection Hins as ->. by rewrite Hroot.
    + rewrite lookup_insert_ne, lookup_empty in Hins by done. discriminate.
Defined.

(** X3.  A tree root with no directory part (a relative path of one
    component) that the downward walk leaves unclaimed makes discovery raise
    [OSError]: the upward walk asks [os.listdir] for the directory named by
    the empty string. *)
Theorem relative_root_raises_oserror (fuel : nat) (w : World) (tree : TreeConfig)
    (sources : gmap string Vcs) :
  PosixPath.dirname (source_folder tree) = "" ->
  walk_from w tree (source_folder tree) ∅ = Ok sources ->
  sources !! source_folder tree = None ->
  tree_to_repos (S fuel) w tree = Raise OSError.
Proof.
  intros Hdir Hdown Hnot. unfold tree_to_repos.
  rewrite Hdown. cbn [mbind outcome_bind]. rewrite walk_up_unfold.
  rewrite bool_decide_true by done.
  destruct (String.eqb_spec (source_folder tree) "/") as [Heq|_].
  { rewrite Heq in Hdir. discriminate. }
  cbn [negb andb]. rewrite Hdir. reflexivity.
Qed.

Lemma relative_root_raises_oserror_witness :
  tree_to_repos 5 relative_docs_world relative_docs_tree = Raise OSError.
Proof.
  apply (relative_root_raises_oserror 4 relative_docs_world relative_docs_tree ∅).
  - reflexivity.
  - vm_compute. reflexivity.
  - reflexivity.
Defined.

(** The handles of the dictionary are rooted at their keys. *)
Lemma claim_down_keeps_roots (classes : list VcsClass) (w : World) (tree : TreeConfig)
    (cwd : string) (dirs dirs' : list string) (s s' : gmap string Vcs) :
  (forall k v, s !! k = Some v -> get_root_dir v = k) ->
  claim_down classes w tree cwd dirs s = Ok (s', dirs') ->
  forall k v, s' !! k = Some v -> get_root_dir v = k.
Proof.
  revert dirs s. induction classes as [|vcs rest IH]; intros dirs s Hs H.
  - by injection H as <- <-.
  - cbn [claim_down] in H.
    destruct (claim_vcs_source vcs w cwd dirs tree) as [[attempt dirs1]|e|] eqn:Hc;
      cbn [mbind outcome_bind] in H; try done.
    eapply IH; [|exact H].
    destruct attempt as [a|]; [|done].
    intros k v. destruct (decide (get_root_dir a = k)) as [<-|Hne].
    + rewrite lookup_insert_eq. by intros [= <-].
    + rewrite lookup_insert_ne by done. apply Hs.
Qed.

Lemma walk_up_keeps_roots (fuel : nat) (w : World) (tree : TreeConfig)
    (directory : string) (s s' : gmap string Vcs) :
  (forall k v, s !! k = Some v -> get_root_dir v = k) ->
  walk_up fuel w tree directory s = Ok s' ->
  forall k v, s' !! k = Some v -> get_root_dir v = k.
Proof.
  revert directory s. induction fuel as [|fuel IH]; intros directory s Hs H.
  - cbn [walk_up] in H.
    destruct (negb (String.eqb directory "/") && bool_decide (s !! directory = None));
      [done|]. by injection H as <-.
  - rewrite walk_up_unfold in H.
    destruct (negb (String.eqb directory "/") && bool_decide (s !! directory = None));
      [|by injection H as <-].
    destruct (claim_up every_vcs w tree (PosixPath.dirname directory) s)
      as [s1|e|] eqn:Hclaim; cbn [mbind outcome_bind] in H; try done.
    eapply IH; [|exact H].
    destruct (claim_up_shape _ _ _ _ _ Hclaim) as [->|(h & -> & Hroot)]; [done|].
    intros k v. destruct (decide (PosixPath.dirname directory = k)) as [<-|Hne].
    + rewrite lookup_insert_eq. by intros [= <-].
    + rewrite lookup_insert_ne by done. apply Hs.
Qed.

Lemma ordered_lookup (sources : gmap string Vcs) (l : list string)
    (reg : list (string * Vcs)) :
  ordered sources l = Ok reg ->
  forall k v, (k, v) ∈ reg -> sources !! k = Some v.
Proof.
  revert reg. induction l as [|key l IH]; cbn [ordered]; intros reg H k v Hin.
  - injection H as <-. by apply elem_of_nil in Hin.
  - unfold getitem in H. destruct (sources !! key) as [v0|] eqn:Hk;
      cbn [mbind outcome_bind] in H; [|done].
    destruct (ordered sources l) as [tail|e|]; cbn [mbind outcome_bind] in H; try done.
    injection H as <-. apply elem_of_cons in Hin as [[= -> ->]|Hin]; [done|].
    by eapply IH.
Qed.

(** X4.  In the registry [tree_to_repos] returns, every handle is rooted at
    the directory it is listed under, so the containment test, which reads
    the key, and the tracked-file test, which reads [get_root_dir], speak of
    the same directory. *)
Theorem registry_handles_rooted_at_keys (fuel : nat) (w : World) (tree : TreeConfig)
    (reg : list (string * Vcs)) (directory : string) (vcs : Vcs) :
  tree_to_repos fuel w tree = Ok reg ->
  (directory, vcs) ∈ reg ->
  get_root_dir vcs = directory.
Proof.
  unfold tree_to_repos. intros H Hin.
  destruct (walk_from w tree (source_folder tree) ∅) as [s1|e|] eqn:Hdown;
    cbn [mbind outcome_bind] in H; try done.
  destruct (walk_up fuel w tree (source_folder tree) s1) as [s2|e|] eqn:Hup;
    cbn [mbind outcome_bind] in H; try done.
  pose proof (ordered_lookup _ _ _ H _ _ Hin) as Hk.
  revert Hk. apply (walk_up_keeps_roots fuel w tree (source_folder tree) s1 s2); [|exact Hup].
  clear H Hin Hup.
  unfold walk_from in Hdown. destruct (Os.lookup w (source_folder tree)) as [n|].
  - revert Hdown.
    apply (walk_invariant w tree
             (fun o => forall s, o = Ok s ->
                       forall k v, s !! k = Some v -> get_root_dir v = k)).
    + done.
    + intros top dirs s s' dirs' Hs Hc s'' [= <-].
      eapply claim_down_keeps_roots; [|exact Hc]. by apply Hs.
    + intros s [= <-] k v Hkv. by rewrite lookup_empty in Hkv.
  - injection Hdown as <-. intros k v Hkv. by rewrite lookup_empty in Hkv.
Qed.

Lemma registry_handles_rooted_at_keys_witness :
  get_root_dir nested_middle = "/src/a".
Proof.
  apply (registry_handles_rooted_at_keys 5 (nested_world github_ssh_origin) src_tree
           (VcsCache.repos nested_session)).
  - vm_compute. reflexivity.
  - unfold nested_session. cbn [VcsCache.repos]. repeat constructor.
Defined.

Lemma scan_found (w : World) (abs_path : string) (repos : list (string * Vcs)) (h : Vcs) :
  VcsCache.scan w abs_path repos = Ok (Some h) ->
  exists directory,
    (directory, h) ∈ repos
    /\ VcsCache.outside w abs_path directory = Ok false
    /\ VcsCache.tracks w abs_path h = Ok true.
Proof.
  induction repos as [|[d v] rest IH]; cbn [VcsCache.scan]; [done|]. intros H.
  destruct (VcsCache.outside w abs_path d) as [[|]| |] eqn:Hout;
    cbn [mbind outcome_bind] in H; try done.
  - destruct (IH H) as (d' & Hin & Hrest). exists d'. split; [by right | done].
  - destruct (VcsCache.tracks w abs_path v) as [[|]| |] eqn:Htr;
      cbn [mbind outcome_bind] in H; try done.
    + injection H as ->. exists d. split; [by left | done].
    + destruct (IH H) as (d' & Hin & Hrest). exists d'. split; [by right | done].
Qed.

(** X5.  A handle that [vcs_for_path] finds for a path not yet in the cache
    is a handle of the registry, listed under a directory the path lies
    within, and it tracks the path: the lookup never gives a root that does
    not hold the file. *)
Theorem found_handle_holds_and_tracks (w : World) (self self' : VcsCache.t)
    (path : string) (h : Vcs) :
  VcsCache._path_cache self !! path = None ->
  VcsCache.vcs_for_path w self path = (Ok (Some h), self') ->
  exists directory,
    (directory, h) ∈ VcsCache.repos self
    /\ lies_within w (abs_path_of self path) directory = true
    /\ VcsCache.tracks w (abs_path_of self path) h = Ok true.
Proof.
  intros Hc H.
  destruct (VcsCache.scan w (abs_path_of self path) (VcsCache.repos self))
    as [[vcs|]| e |] eqn:Hs.
  - rewrite (vcs_for_path_found w self path vcs Hc Hs) in H. injection H as <- _.
    destruct (scan_found _ _ _ _ Hs) as (d & Hin & Hout & Htr).
    exists d. split; [done|]. split; [by apply passes_test_lies_within | done].
  - rewrite (vcs_for_path_absent w self path Hc Hs) in H. discriminate.
  - rewrite (vcs_for_path_raises w self path e Hc Hs) in H. discriminate.
  - by destruct (scan_finishes w _ _ Hs).
Qed.

Lemma found_handle_holds_and_tracks_witness :
  exists directory,
    (directory, nested_middle) ∈ VcsCache.repos nested_session
    /\ lies_within (nested_world github_ssh_origin)
         (abs_path_of nested_session "a/b/f.c") directory = true
    /\ VcsCache.tracks (nested_world github_ssh_origin)
         (abs_path_of nested_session "a/b/f.c") nested_middle = Ok true.
Proof.
  apply (found_handle_holds_and_tracks (nested_world github_ssh_origin) nested_session
           (with_cache nested_session (<[ "a/b/f.c" := nested_middle ]> ∅)) "a/b/f.c").
  - reflexivity.
  - vm_compute. reflexivity.
Defined.

(** ** More on the lookup *)

(** X6.  A call of [vcs_for_path] leaves the tree and the registry of the
    session as they were, keeps every cache entry, and touches the cache
    under no path but the one asked for. *)
Theorem lookup_only_adds_its_own_entry (w : World) (self : VcsCache.t) (path : string) :
  let after := (VcsCache.vcs_for_path w self path).2 in
  VcsCache.tree after = VcsCache.tree self
  /\ VcsCache.repos after = VcsCache.repos self
  /\ VcsCache._path_cache self ⊆ VcsCache._path_cache after
  /\ forall other, other ≠ path ->
       VcsCache._path_cache after !! other = VcsCache._path_cache self !! other.
Proof.
  cbv zeta.
  destruct (VcsCache._path_cache self !! path) as [v|] eqn:Hc.
  - by rewrite (vcs_for_path_cached w self path v Hc).
  - destruct (VcsCache.scan w (abs_path_of self path) (VcsCache.repos self))
      as [[vcs|]| e |] eqn:Hs.
    + rewrite (vcs_for_path_found w self path vcs Hc Hs). cbn.
      repeat split; [by apply insert_subseteq|].
      intros other Hne. by rewrite lookup_insert_ne.
    + by rewrite (vcs_for_path_absent w self path Hc Hs).
    + by rewrite (vcs_for_path_raises w self path e Hc Hs).
    + by destruct (scan_finishes w _ _ Hs).
Qed.

Lemma join_empty (a b : string) : PosixPath.join a b = "" -> a = "" /\ b = "".
Proof.
  unfold PosixPath.join.
  destruct b as [|c b].
  - cbn [Py.startswith String.prefix]. destruct (String.eqb a "" || Py.endswith "/" a).
    + rewrite string_app_empty_r. by intros ->.
    + destruct a; [done|]. rewrite string_app_cons. done.
  - destruct (Py.startswith "/" (String c b)); [done|].
    destruct (String.eqb a "" || Py.endswith "/" a); destruct a; done.
Qed.

Lemma scan_returns (w : World) (abs_path : string) (repos : list (string * Vcs)) :
  abs_path ≠ "" -> exists found, VcsCache.scan w abs_path repos = Ok found.
Proof.
  intros Hne. apply String.eqb_neq in Hne.
  assert (Hrel : forall start, exists rel,
             PosixPath.relpath (getcwd w) abs_path start = Ok rel).
  { intros start. unfold PosixPath.relpath. rewrite Hne.
    destruct (PosixPath.rel_list _ _ _); eauto. }
  induction repos as [|[d v] rest [found IH]]; cbn [VcsCache.scan]; [eauto|].
  unfold VcsCache.outside, VcsCache.tracks.
  destruct (Hrel d) as [rel ->]. cbn [mbind outcome_bind].
  destruct (Py.startswith ".." rel); [eauto|].
  destruct (Hrel (get_root_dir v)) as [rel' ->]. cbn [mbind outcome_bind].
  destruct (is_tracked v rel'); eauto.
Qed.

(** X7.  [vcs_for_path] raises only for the empty path of a tree whose
    [source_folder] is empty: there [relpath] refuses the empty [abs_path]
    with [ValueError] as soon as the registry has a root to compare with;
    for every other path the call returns a handle or [None]. *)
Theorem lookup_raises_only_on_empty_path (w : World) (self : VcsCache.t) (path : string) :
  (source_folder (VcsCache.tree self) ≠ "" \/ path ≠ "" ->
   exists found, (VcsCache.vcs_for_path w self path).1 = Ok found)
  /\ (source_folder (VcsCache.tree self) = "" -> path = "" ->
      VcsCache._path_cache self !! path = None ->
      VcsCache.repos self ≠ [] ->
      (VcsCache.vcs_for_path w self path).1 = Raise ValueError).
Proof.
  split.
  - intros Hne.
    destruct (VcsCache._path_cache self !! path) as [v|] eqn:Hc.
    { rewrite (vcs_for_path_cached w self path v Hc). eauto. }
    destruct (scan_returns w (abs_path_of self path) (VcsCache.repos self)) as [found Hs].
    { intros Hempty. apply join_empty in Hempty as [? ?]. tauto. }
    destruct found as [vcs|].
    + rewrite (vcs_for_path_found w self path vcs Hc Hs). eauto.
    + rewrite (vcs_for_path_absent w self path Hc Hs). eauto.
  - intros Hsf -> Hc Hrepos.
    rewrite (vcs_for_path_raises w self "" ValueError Hc); [done|].
    unfold abs_path_of. rewrite Hsf.
    destruct (VcsCache.repos self) as [|[d v] rest]; [done|]. reflexivity.
Qed.

Lemma lookup_raises_only_on_empty_path_witness :
  (exists found,
     (VcsCache.vcs_for_path (nested_world github_ssh_origin) nested_session "a/b/zzz").1
     = Ok found)
  /\ (VcsCache.vcs_for_path (nested_world github_ssh_origin)
        {| VcsCache.tree := {| source_folder := ""; p4web_url := "" |};
           VcsCache.repos := VcsCache.repos nested_session;
           VcsCache._path_cache := ∅ |} "").1 = Raise ValueError.
Proof.
  split.
  - apply (proj1 (lookup_raises_only_on_empty_path _ nested_session "a/b/zzz")).
    left. cbn. discriminate.
  - apply (proj2 (lookup_raises_only_on_empty_path (nested_world github_ssh_origin)
             {| VcsCache.tree := {| source_folder := ""; p4web_url := "" |};
                VcsCache.repos := VcsCache.repos nested_session;
                VcsCache._path_cache := ∅ |} "")); [reflexivity..|].
    cbn. discriminate.
Defined.

(** ** Claims and the listing *)

Lemma list_remove_first_gone (x : string) (l : list string) :
  NoDup l -> list_contains x (list_remove_first x l) = false.
Proof.
  induction 1 as [|y l Hy _ IH]; [done|]. cbn [list_remove_first].
  destruct (String.eqb_spec y x) as [->|Hne].
  - unfold list_contains. apply not_true_is_false. intros Hin.
    apply existsb_exists in Hin as (z & Hz & Heq).
    apply String.eqb_eq in Heq as <-. by apply Hy, list_elem_of_In.
  - unfold list_contains in *. cbn [existsb]. rewrite IH.
    apply not_eq_sym, String.eqb_neq in Hne. by rewrite Hne.
Qed.

(** X8.  A class that does not claim a directory leaves the listing as it
    was.  A claim returns a handle rooted at the directory; Mercurial and Git
    take their marker, [.hg] or [.git], out of the listing, once, so that
    [os.walk] does not descend into it, and Perforce leaves the listing
    alone. *)
Theorem claim_takes_only_its_marker (vcs : VcsClass) (w : World) (path : string)
    (dirs dirs' : list string) (tree : TreeConfig) (attempt : option Vcs) :
  claim_vcs_source vcs w path dirs tree = Ok (attempt, dirs') ->
  match attempt with
  | None => dirs' = dirs
  | Some a =>
      get_root_dir a = path
      /\ match vcs with
         | MercurialClass =>
             list_contains ".hg" dirs = true
             /\ dirs' = list_remove_first ".hg" dirs
             /\ (NoDup dirs -> list_contains ".hg" dirs' = false)
         | GitClass =>
             list_contains ".git" dirs = true
             /\ dirs' = list_remove_first ".git" dirs
             /\ (NoDup dirs -> list_contains ".git" dirs' = false)
         | PerforceClass => dirs' = dirs
         end
  end.
Proof.
  intros H.
  assert (Hroot : forall a, attempt = Some a -> get_root_dir a = path).
  { intros a ->. by eapply claim_vcs_source_root. }
  destruct vcs; cbn [claim_vcs_source] in H; unfold as_vcs in H.
  - unfold Mercurial.claim_vcs_source in H.
    destruct (list_contains ".hg" dirs) eqn:Hin.
    + destruct (Mercurial.init w path) as [h|e|]; cbn [mbind outcome_bind option_map] in H;
        try done.
      injection H as <- <-. split; [by apply Hroot|].
      repeat split. apply list_remove_first_gone.
    + cbn [mbind outcome_bind option_map] in H. by injection H as <- <-.
  - unfold Git.claim_vcs_source in H.
    destruct (list_contains ".git" dirs) eqn:Hin.
    + destruct (Git.init w path) as [[h ws]|e|]; cbn [mbind outcome_bind option_map] in H;
        try done.
      injection H as <- <-. split; [by apply Hroot|].
      repeat split. apply list_remove_first_gone.
    + cbn [mbind outcome_bind option_map] in H. by injection H as <- <-.
  - unfold Perforce.claim_vcs_source in H.
    destruct (environ w !! "P4CONFIG") as [p4config|];
      [destruct (Os.exists_ w (PosixPath.join path p4config))|].
    + destruct (Perforce.init w path (p4web_url tree)) as [h|e|];
        cbn [mbind outcome_bind option_map] in H; try done.
      injection H as <- <-. split; [by apply Hroot | done].
    + cbn [mbind outcome_bind option_map] in H. by injection H as <- <-.
    + cbn [mbind outcome_bind option_map] in H. by injection H as <- <-.
Qed.

Lemma claim_takes_only_its_marker_witness :
  exists a,
    claim_vcs_source GitClass (nested_world github_ssh_origin) "/src" [".git"; "a"] src_tree
    = Ok (Some a, ["a"])
    /\ get_root_dir a = "/src"
    /\ list_contains ".git" ["a"] = false.
Proof.
  assert (Hrun : exists a, claim_vcs_source GitClass (nested_world github_ssh_origin) "/src"
                             [".git"; "a"] src_tree = Ok (Some a, ["a"]))
    by (vm_compute; eauto).
  destruct Hrun as [a Hrun]. exists a. split; [exact Hrun|].
  destruct (claim_takes_only_its_marker _ _ _ _ _ _ _ Hrun) as (Hroot & _ & _ & Hgone).
  split; [exact Hroot|]. apply Hgone.
  apply (bool_decide_unpack (NoDup [".git"; "a"])). vm_compute. exact I.
Defined.

(** X9.  A directory that looks like a Git checkout and is none stops
    discovery: when the tree root holds [.git] (and no [.hg]) and
    [git ls-files] fails there, [tree_to_repos] raises what the command
    raised instead of passing the directory over. *)
Theorem failed_construction_aborts_discovery (fuel : nat) (w : World) (tree : TreeConfig)
    (name : string) (entries : list node) (e : exn) :
  Os.lookup w (source_folder tree) = Some (Dir name entries) ->
  list_contains ".hg" (Os.subdirs entries) = false ->
  list_contains ".git" (Os.subdirs entries) = true ->
  check_output w "git" ["ls-files"] (source_folder tree) = Raised e ->
  tree_to_repos fuel w tree = Raise e.
Proof.
  intros Hdir Hhg Hgit Hfail. unfold tree_to_repos, walk_from.
  rewrite Hdir, walk_dir_eq. unfold every_vcs. cbn [claim_down claim_vcs_source].
  unfold as_vcs, Mercurial.claim_vcs_source, Git.claim_vcs_source, Git.init, Git.invoke_vcs.
  rewrite Hhg. cbn [mbind outcome_bind option_map].
  rewrite Hgit, Hfail. reflexivity.
Qed.

Lemma failed_construction_aborts_discovery_witness :
  tree_to_repos 5 broken_world src_tree = Raise CalledProcessError.
Proof.
  apply (failed_construction_aborts_discovery 5 broken_world src_tree
           "src" [Dir ".git" []; File "main.c"]); vm_compute; reflexivity.
Defined.

(** ** [get_contents] and [file_contents_at_rev] *)

Lemma after_last_app_sep (c : ascii) (p s : string) :
  Py.after_last c s = 0 ->
  Py.after_last c (p +:+ String c s) = String.length p + 1.
Proof.
  intros Hs. induction p as [|a p IH].
  - change ("" +:+ String c s) with (String c s). cbn [Py.after_last].
    rewrite Hs, Ascii.eqb_refl. reflexivity.
  - rewrite string_app_cons. cbn [Py.after_last]. rewrite IH, Nat.add_1_r.
    cbn [String.length]. lia.
Qed.

Lemma take_app_length (p s : string) (n : nat) :
  Py.take (String.length p + n) (p +:+ s) = p +:+ Py.take n s.
Proof.
  induction p as [|a p IH]; [done|].
  rewrite !string_app_cons. cbn [String.length Nat.add Py.take]. by rewrite IH.
Qed.

Lemma all_char_snoc_false (c : ascii) (p : string) :
  p ≠ "" -> Py.rstrip c p = p -> Py.all_char c (p +:+ String c "") = false.
Proof.
  induction p as [|a p IH]; [done|]. intros _ Hstrip.
  rewrite string_app_cons. cbn [Py.all_char].
  destruct (Ascii.eqb_spec a c) as [->|]; [|done]. cbn [andb].
  cbn [Py.rstrip] in Hstrip.
  destruct (Py.rstrip c p) as [|b t] eqn:Hp.
  - by rewrite Ascii.eqb_refl in Hstrip.
  - injection Hstrip as Hstrip. apply IH; [by intros -> | done].
Qed.

(** For a path made of a directory, a slash and a name that holds no slash,
    [split] gives back the directory and the name. *)
Lemma split_dir_name (dir name : string) :
  dir ≠ "" -> Py.rstrip PosixPath.sep dir = dir ->
  Py.after_last PosixPath.sep name = 0 ->
  PosixPath.split (dir +:+ "/" +:+ name) = (dir, name).
Proof.
  intros Hne Hstrip Hname. unfold PosixPath.split.
  change (dir +:+ "/" +:+ name) with (dir +:+ String PosixPath.sep name).
  rewrite (after_last_app_sep _ _ _ Hname).
  rewrite take_app_length, drop_app_add.
  change (Py.take 1 (String PosixPath.sep name)) with (String PosixPath.sep "").
  change (Py.drop 1 (String PosixPath.sep name)) with name.
  rewrite (all_char_snoc_false _ _ Hne Hstrip), rstrip_snoc, Hstrip.
  destruct dir; [done|]. reflexivity.
Qed.

(** X10.  [get_contents] runs the command in the directory of the file, on
    the name of the file: [hg cat -r revision name] for Mercurial and
    [git show revision:./name] for Git. *)
Theorem get_contents_runs_in_directory (w : World) (dir name revision : string) :
  dir ≠ "" -> Py.rstrip PosixPath.sep dir = dir ->
  Py.after_last PosixPath.sep name = 0 ->
  Mercurial.get_contents w (dir +:+ "/" +:+ name) revision
  = call (check_output w "hg" ["cat"; "-r"; revision; name] dir)
  /\ Git.get_contents w (dir +:+ "/" +:+ name) revision
     = call (check_output w "git" ["show"; revision +:+ ":./" +:+ name] dir).
Proof.
  intros Hne Hstrip Hname.
  unfold Mercurial.get_contents, Git.get_contents.
  by rewrite (split_dir_name dir name Hne Hstrip Hname).
Qed.

Lemma get_contents_runs_in_directory_witness :
  Mercurial.get_contents contents_world ("/src/docs" +:+ "/" +:+ "guide.txt") "tip"
  = call (check_output contents_world "hg" ["cat"; "-r"; "tip"; "guide.txt"] "/src/docs")
  /\ Git.get_contents contents_world ("/src/docs" +:+ "/" +:+ "guide.txt") "tip"
     = call (check_output contents_world "git" ["show"; "tip" +:+ ":./" +:+ "guide.txt"]
               "/src/docs").
Proof. apply get_contents_runs_in_directory; [discriminate | reflexivity | reflexivity]. Defined.

(** X11.  [file_contents_at_rev] asks Mercurial first and returns what it
    prints; when [hg] fails with [CalledProcessError], Git is asked, and when
    [git] fails in that way too the answer is [None]. *)
Theorem contents_mercurial_then_git (w : World) (abspath revision head tail : string) :
  PosixPath.split abspath = (head, tail) ->
  (forall contents,
     check_output w "hg" ["cat"; "-r"; revision; tail] head = Returned contents ->
     file_contents_at_rev w abspath revision = Ok (Some contents))
  /\ (check_output w "hg" ["cat"; "-r"; revision; tail] head = Raised CalledProcessError ->
      (forall contents,
         check_output w "git" ["show"; revision +:+ ":./" +:+ tail] head = Returned contents ->
         file_contents_at_rev w abspath revision = Ok (Some contents))
      /\ (check_output w "git" ["show"; revision +:+ ":./" +:+ tail] head
          = Raised CalledProcessError ->
          file_contents_at_rev w abspath revision = Ok None)).
Proof.
  intros Hsplit.
  unfold file_contents_at_rev, Mercurial.get_contents, Git.get_contents,
    Mercurial.invoke_vcs, Git.invoke_vcs.
  rewrite Hsplit. split; [by intros c ->|].
  intros ->. split; [by intros c -> | by intros ->].
Qed.

Lemma contents_mercurial_then_git_witness :
  file_contents_at_rev contents_world "/src/docs/guide.txt" "tip"
  = Ok (Some "int main(void);")
  /\ file_contents_at_rev (nested_world github_ssh_origin) "/etc/passwd" "tip" = Ok None.
Proof.
  split.
  - apply (proj2 (contents_mercurial_then_git contents_world "/src/docs/guide.txt" "tip"
                    "/src/docs" "guide.txt" eq_refl)); reflexivity.
  - apply (proj2 (contents_mercurial_then_git (nested_world github_ssh_origin)
                    "/etc/passwd" "tip" "/etc" "passwd" eq_refl)); reflexivity.
Defined.

(** X12.  Only [CalledProcessError] is caught: when [hg] fails in another
    way (the command is not installed, say), [file_contents_at_rev] raises
    that exception, whatever [git] would have printed. *)
Theorem contents_other_errors_propagate (w : World) (abspath revision head tail : string)
    (e : exn) :
  PosixPath.split abspath = (head, tail) ->
  check_output w "hg" ["cat"; "-r"; revision; tail] head = Raised e ->
  e ≠ CalledProcessError ->
  file_contents_at_rev w abspath revision = Raise e.
Proof.
  intros Hsplit Hhg Hne.
  unfold file_contents_at_rev, Mercurial.get_contents, Mercurial.invoke_vcs.
  rewrite Hsplit, Hhg. by destruct e.
Qed.

Lemma contents_other_errors_propagate_witness :
  file_contents_at_rev (nested_world github_ssh_origin) "/src/a/b/f.c" "tip" = Raise OSError.
Proof.
  apply (contents_other_errors_propagate (nested_world github_ssh_origin)
           "/src/a/b/f.c" "tip" "/src/a/b" "f.c" OSError).
  - reflexivity.
  - reflexivity.
  - discriminate.
Defined.

(** ** What the handles track *)

Lemma split1_shape (c : ascii) (line : string) :
  (exists a, Py.split1 c line = [a]) \/ (exists a b, Py.split1 c line = [a; b]).
Proof.
  induction line as [|x line IH]; cbn [Py.split1]; [left; by eexists|].
  destruct (Ascii.eqb x c); [right; by eexists _, _|].
  destruct IH as [[a ->]|(a & b & ->)]; [left; by eexists | right; by eexists _, _].
Qed.

Lemma previous_of_lines_keys (lines : list string) (acc m : gmap string string) :
  Mercurial.previous_of_lines lines acc = Ok m ->
  forall path,
    is_Some (m !! path)
    <-> is_Some (acc !! path)
        \/ exists line node_, line ∈ lines /\ Py.split1 ":" line = [node_; path].
Proof.
  revert acc. induction lines as [|line rest IH]; cbn [Mercurial.previous_of_lines];
    intros acc H path.
  - injection H as <-. split; [by left|]. intros [?|(l & n & Hin & _)]; [done|].
    by apply elem_of_nil in Hin.
  - destruct (split1_shape ":" line) as [[a Hs]|(a & b & Hs)]; rewrite Hs in H; [done|].
    rewrite (IH _ H path). split.
    + intros [Hacc|(l & n & Hin & Hl)].
      * destruct (decide (b = path)) as [<-|Hne].
        -- right. exists line, a. split; [by left | done].
        -- left. by rewrite lookup_insert_ne in Hacc.
      * right. exists l, n. split; [by right | done].
    + intros [Hacc|(l & n & Hin & Hl)].
      * left. destruct (decide (b = path)) as [<-|Hne].
        -- rewrite lookup_insert_eq. by eexists.
        -- by rewrite lookup_insert_ne.
      * apply elem_of_cons in Hin as [->|Hin].
        -- left. rewrite Hs in Hl. injection Hl as -> ->.
           rewrite lookup_insert_eq. by eexists.
        -- right. by exists l, n.
Qed.

(** X13.  A Mercurial handle tracks the paths that the lines [node:path]
    of [hg previous-revisions] name, and no other path; [generate_diff]
    returns a URL for these paths and raises [KeyError] for every other
    path. *)
Theorem mercurial_tracks_listed_paths (w : World) (root : string) (h : Mercurial.t) :
  Mercurial.init w root = Ok h ->
  exists out,
    hg_previous_revisions w root = Returned out
    /\ forall path,
         (Mercurial.is_tracked h path = true
          <-> exists line node_,
                line ∈ Py.splitlines out /\ Py.split1 ":" line = [node_; path])
         /\ (Mercurial.is_tracked h path = true
             -> exists url, Mercurial.generate_diff h path = Ok url)
         /\ (Mercurial.is_tracked h path = false
             -> Mercurial.generate_diff h path = Raise KeyError).
Proof.
  unfold Mercurial.init, Mercurial.find_previous_revisions. intros H.
  destruct (hg_tip_node w root) as [tip|e]; cbn [call mbind outcome_bind] in H; [|done].
  destruct (hg_previous_revisions w root) as [out|e]; cbn [call mbind outcome_bind] in H;
    [|done].
  destruct (Mercurial.previous_of_lines (Py.splitlines out) ∅) as [prev|e|] eqn:Hprev;
    cbn [mbind outcome_bind] in H; try done.
  destruct (hg_upstream_url w root) as [up|e]; cbn [call mbind outcome_bind] in H; [|done].
  injection H as <-. exists out. split; [done|]. intros path.
  unfold Mercurial.is_tracked, Mercurial.generate_diff.
  cbn [Mercurial.previous_revisions Mercurial.upstream].
  pose proof (previous_of_lines_keys _ _ _ Hprev path) as Hkeys.
  rewrite lookup_empty in Hkeys. split; [|split].
  - rewrite bool_decide_eq_true, Hkeys. split; [|by right].
    intros [[? ?]|?]; done.
  - rewrite bool_decide_eq_true. intros [node_ ->]. by eexists.
  - rewrite bool_decide_eq_false. destruct (prev !! path); [|done].
    intros Hno. by destruct Hno.
Qed.

Lemma mercurial_tracks_listed_paths_witness :
  exists h,
    Mercurial.init both_world "/src" = Ok h
    /\ Mercurial.is_tracked h "main.c" = true
    /\ Mercurial.generate_diff h "other.c" = Raise KeyError.
Proof.
  assert (Hrun : exists h, Mercurial.init both_world "/src" = Ok h) by (vm_compute; eauto).
  destruct Hrun as [h Hrun]. exists h. split; [exact Hrun|].
  destruct (mercurial_tracks_listed_paths _ _ _ Hrun) as (out & Hout & Hpaths).
  assert (Hw : hg_previous_revisions both_world "/src"
               = Returned ("abc123abc123:main.c" +:+ lf)) by reflexivity.
  rewrite Hw in Hout. injection Hout as <-.
  split.
  - apply (proj1 (Hpaths "main.c")).
    exists "abc123abc123:main.c", "abc123abc123". split; [|reflexivity].
    vm_compute. repeat constructor.
  - apply (proj2 (proj2 (Hpaths "other.c"))).
    apply not_true_is_false. intros Htr.
    apply (proj1 (Hpaths "other.c")) in Htr as (line & node_ & Hin & Hsplit).
    vm_compute in Hin. apply list_elem_of_singleton in Hin as ->.
    vm_compute in Hsplit. discriminate.
Defined.

(** X14.  The URL methods of a Perforce handle, and [display_rev], look the
    path up in the [have] map: they return for the paths the handle tracks
    and raise [KeyError] for every other path. *)
Theorem perforce_links_need_tracked_path (self : Perforce.t) (path : string) :
  (Perforce.is_tracked self path = true ->
   exists raw blame log rev,
     Perforce.generate_raw self path = Ok raw
     /\ Perforce.generate_blame self path = Ok blame
     /\ Perforce.generate_log self path = Ok log
     /\ Perforce.display_rev self path = Ok rev)
  /\ (Perforce.is_tracked self path = false ->
      Perforce.generate_raw self path = Raise KeyError
      /\ Perforce.generate_blame self path = Raise KeyError
      /\ Perforce.generate_log self path = Raise KeyError
      /\ Perforce.display_rev self path = Raise KeyError).
Proof.
  unfold Perforce.is_tracked, Perforce.generate_raw, Perforce.generate_blame,
    Perforce.generate_log, Perforce.display_rev, Perforce.info_of.
  split.
  - rewrite bool_decide_eq_true. intros [info ->]. cbn [mbind outcome_bind].
    by eexists _, _, _, _.
  - rewrite bool_decide_eq_false. destruct (Perforce.have self !! path); [|done].
    intros Hno. by destruct Hno.
Qed.

Lemma have_keys (root : string) (records : list P4Record) (acc : gmap string P4Record)
    (rel : string) :
  is_Some (fold_left
             (fun d x => <[Py.drop (String.length root + 1) (p4_path x) := x]> d)
             records acc !! rel)
  <-> is_Some (acc !! rel)
      \/ exists x, x ∈ records /\ Py.drop (String.length root + 1) (p4_path x) = rel.
Proof.
  revert acc. induction records as [|x rest IH]; intros acc; cbn [fold_left].
  - split; [by left|]. intros [?|(x & Hin & _)]; [done|]. by apply elem_of_nil in Hin.
  - rewrite IH. split.
    + intros [Hacc|(y & Hin & Hy)].
      * destruct (decide (Py.drop (String.length root + 1) (p4_path x) = rel)) as [Heq|Hne].
        -- right. exists x. split; [by left | done].
        -- left. by rewrite lookup_insert_ne in Hacc.
      * right. exists y. split; [by right | done].
    + intros [Hacc|(y & Hin & Hy)].
      * left. destruct (decide (Py.drop (String.length root + 1) (p4_path x) = rel))
          as [<-|Hne]; [rewrite lookup_insert_eq; by eexists | by rewrite lookup_insert_ne].
      * apply elem_of_cons in Hin as [->|Hin].
        -- left. rewrite Hy, lookup_insert_eq. by eexists.
        -- right. by exists y.
Qed.

(** X15.  A Perforce handle tracks a path exactly when [p4 have] reports a
    file whose path, with the first [len(root) + 1] characters cut off, is
    that path; so a file reported as [root/rel] is tracked as [rel]. *)
Theorem perforce_tracks_reported_files (w : World) (root upstream : string)
    (h : Perforce.t) :
  Perforce.init w root upstream = Ok h ->
  exists records,
    p4_have w root = Returned records
    /\ (forall rel,
          Perforce.is_tracked h rel = true
          <-> exists x, x ∈ records
                        /\ Py.drop (String.length root + 1) (p4_path x) = rel)
    /\ (forall x rel,
          x ∈ records -> p4_path x = root +:+ "/" +:+ rel ->
          Perforce.is_tracked h rel = true).
Proof.
  unfold Perforce.init. intros H.
  destruct (p4_have w root) as [records|e]; cbn [call mbind outcome_bind] in H; [|done].
  injection H as <-. exists records. split; [done|].
  assert (Hiff : forall rel,
             Perforce.is_tracked
               {| Perforce.root := root;
                  Perforce.have :=
                    fold_left
                      (fun d x => <[Py.drop (String.length root + 1) (p4_path x) := x]> d)
                      records ∅;
                  Perforce.upstream := upstream |} rel = true
             <-> exists x, x ∈ records
                           /\ Py.drop (String.length root + 1) (p4_path x) = rel).
  { intros rel. unfold Perforce.is_tracked. cbn [Perforce.have].
    rewrite bool_decide_eq_true, have_keys, lookup_empty. split; [|by right].
    intros [[? ?]|?]; done. }
  split; [exact Hiff|].
  intros x rel Hin Hpath. apply Hiff. exists x. split; [done|].
  rewrite Hpath. change (root +:+ "/" +:+ rel) with (root +:+ String "/" rel).
  by rewrite drop_app_add.
Qed.

Lemma perforce_tracks_reported_files_witness :
  exists h,
    Perforce.init p4_world "/depot" "http://p4web/" = Ok h
    /\ Perforce.is_tracked h "main.c" = true.
Proof.
  assert (Hrun : exists h, Perforce.init p4_world "/depot" "http://p4web/" = Ok h)
    by (vm_compute; eauto).
  destruct Hrun as [h Hrun]. exists h. split; [exact Hrun|].
  destruct (perforce_tracks_reported_files _ _ _ _ Hrun) as (records & Hrec & _ & Hfile).
  assert (Hw : p4_have p4_world "/depot"
               = Returned [ {| p4_path := "/depot" +:+ "/main.c";
                               p4_depotFile := "//depot/main.c";
                               p4_haveRev := "7" |} ]) by reflexivity.
  rewrite Hw in Hrec. injection Hrec as <-.
  eapply Hfile; [by left | reflexivity].
Defined.

Lemma perforce_links_need_tracked_path_witness :
  exists h,
    Perforce.init p4_world "/depot" "http://p4web/" = Ok h
    /\ Perforce.generate_raw h "other.c" = Raise KeyError
    /\ exists raw, Perforce.generate_raw h "main.c" = Ok raw.
Proof.
  assert (Hrun : exists h, Perforce.init p4_world "/depot" "http://p4web/" = Ok h
                           /\ Perforce.is_tracked h "other.c" = false
                           /\ Perforce.is_tracked h "main.c" = true)
    by (vm_compute; eauto).
  destruct Hrun as (h & Hrun & Hother & Hmain). exists h. split; [exact Hrun|]. split.
  - apply (proj2 (perforce_links_need_tracked_path h "other.c") Hother).
  - destruct (proj1 (perforce_links_need_tracked_path h "main.c") Hmain)
      as (raw & _ & _ & _ & Hraw & _).
    by exists raw.
Defined.

(** ** More on the upstream of a Git checkout *)

(** X16.  When every line [git remote -v] prints is empty or has three
    fields for a remote other than [origin] (it may print nothing at all),
    the handle is constructed with no upstream and no warning; its tracked
    files and revision are set as usual, and the methods that generate URLs
    raise [TypeError]. *)
Theorem git_without_origin_has_no_upstream (w : World) (root files rev out : string) :
  Git.invoke_vcs w ["ls-files"] root = Ok files ->
  Git.invoke_vcs w ["rev-parse"; "HEAD"] root = Ok rev ->
  Git.invoke_vcs w ["remote"; "-v"] root = Ok out ->
  Forall passed_over (Py.split "010" out) ->
  exists h,
    Git.init w root = Ok (h, [])
    /\ Git.upstream h = None
    /\ Git.revision h = Py.strip rev
    /\ (forall path, Git.is_tracked h path = true <-> path ∈ Py.splitlines files)
    /\ forall path, Git.generate_raw h path = Raise TypeError.
Proof.
  intros Hfiles Hrev Hout Hlines.
  unfold Git.init, Git._construct_upstream_url.
  rewrite Hfiles, Hrev, Hout. cbn [mbind outcome_bind].
  rewrite <- (app_nil_r (Py.split "010" out)), (upstream_of_lines_skip _ [] Hlines).
  cbn [Git.upstream_of_lines mbind outcome_bind].
  eexists. split; [reflexivity|]. split; [reflexivity|]. split; [reflexivity|]. split.
  - intros path. unfold Git.is_tracked. cbn [Git.tracked_files].
    rewrite bool_decide_eq_true. apply elem_of_list_to_set.
  - reflexivity.
Qed.

Lemma git_without_origin_has_no_upstream_witness :
  exists h,
    Git.init (remotes_world (remote_lines "upstream" "https://github.com/org/repo.git"))
      "/src" = Ok (h, [])
    /\ Git.upstream h = None
    /\ Git.revision h = "def4567890abcdef0123"
    /\ (forall path, Git.is_tracked h path = true <-> path ∈ ["main.c"])
    /\ forall path, Git.generate_raw h path = Raise TypeError.
Proof.
  apply (git_without_origin_has_no_upstream
           (remotes_world (remote_lines "upstream" "https://github.com/org/repo.git"))
           "/src" ("main.c" +:+ lf) ("def4567890abcdef0123" +:+ lf)
           (remote_lines "upstream" "https://github.com/org/repo.git")).
  - reflexivity.
  - reflexivity.
  - reflexivity.
  - assert (Hlines : Py.split "010"
                        (remote_lines "upstream" "https://github.com/org/repo.git")
                      = ["upstream" +:+ tab +:+ "https://github.com/org/repo.git (fetch)";
                         "upstream" +:+ tab +:+ "https://github.com/org/repo.git (push)";
                         ""])
      by (vm_compute; reflexivity).
    rewrite Hlines. apply Forall_cons. split; [|apply Forall_cons; split; [|repeat constructor]].
    + right. exists "upstream", "https://github.com/org/repo.git", "(fetch)".
      split; [vm_compute; reflexivity | discriminate].
    + right. exists "upstream", "https://github.com/org/repo.git", "(push)".
      split; [vm_compute; reflexivity | discriminate].
Defined.

(** X17.  A line of [git remote -v] that is not empty and does not have
    three fields, met before any line for [origin], makes the construction of
    the handle raise [ValueError]; the claim of the directory raises it too,
    after it took [.git] out of the listing. *)
Theorem git_malformed_remote_line_raises (w : World) (root files rev out : string)
    (before after : list string) (line : string) (dirs : list string) (tree : TreeConfig) :
  Git.invoke_vcs w ["ls-files"] root = Ok files ->
  Git.invoke_vcs w ["rev-parse"; "HEAD"] root = Ok rev ->
  Git.invoke_vcs w ["remote"; "-v"] root = Ok out ->
  Py.split "010" out = before ++ line :: after ->
  Forall passed_over before ->
  line ≠ "" ->
  length (Py.words line) ≠ 3 ->
  list_contains ".git" dirs = true ->
  Git.init w root = Raise ValueError
  /\ Git.claim_vcs_source w root dirs tree = Raise ValueError.
Proof.
  intros Hfiles Hrev Hout Hsplit Hbefore Hne Hfields Hdirs.
  assert (Hinit : Git.init w root = Raise ValueError).
  { unfold Git.init, Git._construct_upstream_url.
    rewrite Hfiles, Hrev, Hout. cbn [mbind outcome_bind].
    rewrite Hsplit, (upstream_of_lines_skip _ _ Hbefore). cbn [Git.upstream_of_lines].
    apply String.eqb_neq in Hne. rewrite Hne.
    destruct (Py.words line) as [|a [|b [|c [|d l]]]]; try done. }
  split; [exact Hinit|].
  unfold Git.claim_vcs_source. by rewrite Hdirs, Hinit.
Qed.

Lemma git_malformed_remote_line_raises_witness :
  Git.init (remotes_world ("origin" +:+ tab +:+ "/home/me/my repo (fetch)" +:+ lf)) "/src"
  = Raise ValueError
  /\ Git.claim_vcs_source
       (remotes_world ("origin" +:+ tab +:+ "/home/me/my repo (fetch)" +:+ lf)) "/src"
       [".git"] src_tree = Raise ValueError.
Proof.
  apply (git_malformed_remote_line_raises
           (remotes_world ("origin" +:+ tab +:+ "/home/me/my repo (fetch)" +:+ lf)) "/src"
           ("main.c" +:+ lf) ("def4567890abcdef0123" +:+ lf)
           ("origin" +:+ tab +:+ "/home/me/my repo (fetch)" +:+ lf)
           [] [""] ("origin" +:+ tab +:+ "/home/me/my repo (fetch)")).
  - reflexivity.
  - reflexivity.
  - reflexivity.
  - vm_compute. reflexivity.
  - constructor.
  - discriminate.
  - vm_compute. lia.
  - reflexivity.
Defined.

(** ** The last loop of [tree_to_repos] *)

(** X18.  The last loop of [tree_to_repos] never misses a key: from any
    dictionary it makes a registry that holds the entries of the dictionary,
    each once, and nothing else. *)
Theorem registry_holds_the_dictionary (sources : gmap string Vcs) :
  exists reg,
    ordered sources (sorted_by_len_reverse (keys sources)) = Ok reg
    /\ NoDup reg.*1
    /\ forall k v, (k, v) ∈ reg <-> sources !! k = Some v.
Proof.
  destruct (ordered_total sources (sorted_by_len_reverse (keys sources))) as [reg Hreg].
  { rewrite sorted_by_len_reverse_perm. apply Forall_forall. intros k Hk.
    unfold keys in Hk. apply list_elem_of_fmap in Hk as ([k' v] & -> & Hkv).
    apply elem_of_map_to_list in Hkv. by eexists. }
  exists reg. split; [done|].
  pose proof (ordered_keys _ _ _ Hreg) as Hkeys.
  split.
  - rewrite Hkeys, sorted_by_len_reverse_perm. apply NoDup_fst_map_to_list.
  - intros k v. split; [by apply (ordered_lookup _ _ _ Hreg)|].
    intros Hkv.
    assert (k ∈ reg.*1) as Hin.
    { rewrite Hkeys, sorted_by_len_reverse_perm. unfold keys.
      apply list_elem_of_fmap. exists (k, v). split; [done|].
      by apply elem_of_map_to_list. }
    apply list_elem_of_fmap in Hin as ([k' v'] & Hk & Hin). cbn in Hk. subst k'.
    pose proof (ordered_lookup _ _ _ Hreg _ _ Hin) as Hv'.
    rewrite Hkv in Hv'. by injection Hv' as <-.
Qed.

(** ** Markers that are files *)

(** X19.  The downward walk offers a class the subdirectories of a
    directory only, the upward walk offers it every name [os.listdir]
    reports.  So a [.git] that is a file, as in a submodule or a linked work
    tree, does not make Git claim its directory on the way down, and does on
    the way up. *)
Theorem git_file_marker_counts_only_upward (w : World) (tree : TreeConfig)
    (directory name : string) (entries : list node) :
  Os.lookup w directory = Some (Dir name entries) ->
  File ".git" ∈ entries ->
  (forall sub, Dir ".git" sub ∉ entries) ->
  claim_vcs_source GitClass w directory (Os.subdirs entries) tree
  = Ok (None, Os.subdirs entries)
  /\ exists names,
       Os.listdir w directory = Ok names
       /\ forall h warnings,
            Git.init w directory = Ok (h, warnings) ->
            claim_vcs_source GitClass w directory names tree
            = Ok (Some (VGit h), list_remove_first ".git" names).
Proof.
  intros Hdir Hfile Hnodir. split.
  - cbn [claim_vcs_source]. unfold as_vcs, Git.claim_vcs_source.
    assert (list_contains ".git" (Os.subdirs entries) = false) as ->; [|done].
    apply not_true_is_false. intros Hin. unfold list_contains in Hin.
    apply existsb_exists in Hin as (x & Hx & Heq). apply String.eqb_eq in Heq as <-.
    unfold Os.subdirs in Hx. apply list_elem_of_In, list_elem_of_fmap in Hx
      as (e & Hname & He).
    apply list_elem_of_filter in He as [Hisdir He].
    destruct e as [n|n sub]; [done|]. cbn in Hname. subst n. by apply (Hnodir sub).
  - exists (node_name <$> entries). unfold Os.listdir. rewrite Hdir. split; [done|].
    intros h warnings Hinit. cbn [claim_vcs_source]. unfold as_vcs, Git.claim_vcs_source.
    assert (list_contains ".git" (node_name <$> entries) = true) as ->.
    { unfold list_contains. apply existsb_exists. exists ".git". split; [|reflexivity].
      apply list_elem_of_In, list_elem_of_fmap. by exists (File ".git"). }
    by rewrite Hinit.
Qed.

Lemma git_file_marker_counts_only_upward_witness :
  claim_vcs_source GitClass gitfile_world "/src/sub"
    (Os.subdirs [File ".git"; File "lib.c"]) src_tree
  = Ok (None, Os.subdirs [File ".git"; File "lib.c"])
  /\ exists names,
       Os.listdir gitfile_world "/src/sub" = Ok names
       /\ forall h warnings,
            Git.init gitfile_world "/src/sub" = Ok (h, warnings) ->
            claim_vcs_source GitClass gitfile_world "/src/sub" names src_tree
            = Ok (Some (VGit h), list_remove_first ".git" names).
Proof.
  apply (git_file_marker_counts_only_upward gitfile_world src_tree "/src/sub" "sub"
           [File ".git"; File "lib.c"]).
  - vm_compute. reflexivity.
  - by left.
  - intros sub Hin. apply list_elem_of_In in Hin. cbn in Hin.
    destruct Hin as [Hin|[Hin|[]]]; discriminate.
Defined.

(** The tree of [gitfile_world] walked from [/src] finds no root; walked
    from below [/src/sub] it finds [/src/sub] on the way up. *)
Example gitfile_found_only_upward :
  tree_to_repos 9 gitfile_world src_tree = Ok []
  /\ exists h,
       tree_to_repos 9 gitfile_world {| source_folder := "/src/sub/deep"; p4web_url := "" |}
       = Ok [("/src/sub", VGit h)].
Proof. split; [vm_compute; reflexivity | vm_compute; eauto]. Qed.

(** ** The revision a Mercurial diff link names *)

Lemma previous_of_lines_last (l1 l2 : list string) (line node_ path : string)
    (acc m : gmap string string) :
  Py.split1 ":" line = [node_; path] ->
  Forall (fun l => forall n, Py.split1 ":" l ≠ [n; path]) l2 ->
  Mercurial.previous_of_lines (l1 ++ line :: l2) acc = Ok m ->
  m !! path = Some node_.
Proof.
  intros Hline Hl2. revert acc. induction l1 as [|l l1 IH]; intros acc H.
  - cbn [app Mercurial.previous_of_lines] in H. rewrite Hline in H.
    assert (Hkeep : forall acc', acc' !! path = Some node_ ->
              Mercurial.previous_of_lines l2 acc' = Ok m -> m !! path = Some node_).
    { clear H. induction Hl2 as [|l l2 Hl _ IH2]; intros acc' Hacc H.
      - cbn in H. by injection H as <-.
      - cbn [Mercurial.previous_of_lines] in H.
        destruct (split1_shape ":" l) as [[a Hs]|(a & b & Hs)]; rewrite Hs in H; [done|].
        apply (IH2 (<[b := a]> acc')); [|done].
        rewrite lookup_insert_ne; [done|]. intros ->. by apply (Hl a). }
    apply (Hkeep (<[path := node_]> acc)); [apply lookup_insert_eq | done].
  - cbn [app Mercurial.previous_of_lines] in H.
    destruct (split1_shape ":" l) as [[a Hs]|(a & b & Hs)]; rewrite Hs in H; [done|].
    by apply (IH _ H).
Qed.

(** X20.  When several lines of [hg previous-revisions] name one path, the
    last of them counts: [generate_diff] links to the node of the last line
    that names the path. *)
Theorem mercurial_diff_names_last_listed_node (w : World) (root out : string)
    (h : Mercurial.t) (l1 l2 : list string) (line node_ path : string) :
  Mercurial.init w root = Ok h ->
  hg_previous_revisions w root = Returned out ->
  Py.splitlines out = l1 ++ line :: l2 ->
  Py.split1 ":" line = [node_; path] ->
  Forall (fun l => forall n, Py.split1 ":" l ≠ [n; path]) l2 ->
  Mercurial.generate_diff h path
  = Ok (Mercurial.upstream h +:+ "diff/" +:+ node_ +:+ "/" +:+ path).
Proof.
  unfold Mercurial.init, Mercurial.find_previous_revisions.
  intros H Hout Hlines Hline Hl2.
  destruct (hg_tip_node w root) as [tip|e]; cbn [call mbind outcome_bind] in H; [|done].
  rewrite Hout in H. cbn [call mbind outcome_bind] in H. rewrite Hlines in H.
  destruct (Mercurial.previous_of_lines (l1 ++ line :: l2) ∅) as [prev|e|] eqn:Hprev;
    cbn [mbind outcome_bind] in H; try done.
  destruct (hg_upstream_url w root) as [up|e]; cbn [call mbind outcome_bind] in H; [|done].
  injection H as <-. unfold Mercurial.generate_diff.
  cbn [Mercurial.previous_revisions Mercurial.upstream].
  by rewrite (previous_of_lines_last _ _ _ _ _ _ _ Hline Hl2 Hprev).
Qed.

Lemma mercurial_diff_names_last_listed_node_witness :
  exists h,
    Mercurial.init twice_listed_world "/src" = Ok h
    /\ Mercurial.generate_diff h "main.c"
       = Ok (Mercurial.upstream h +:+ "diff/" +:+ "bbb222" +:+ "/" +:+ "main.c").
Proof.
  assert (Hrun : exists h, Mercurial.init twice_listed_world "/src" = Ok h)
    by (vm_compute; eauto).
  destruct Hrun as [h Hrun]. exists h. split; [exact Hrun|].
  apply (mercurial_diff_names_last_listed_node twice_listed_world "/src"
           ("aaa111:main.c" +:+ lf +:+ "bbb222:main.c" +:+ lf +:+ "ccc333:other.c" +:+ lf)
           h ["aaa111:main.c"] ["ccc333:other.c"] "bbb222:main.c").
  - exact Hrun.
  - reflexivity.
  - vm_compute. reflexivity.
  - vm_compute. reflexivity.
  - constructor; [|constructor]. intros n Hn. vm_compute in Hn. discriminate.
Defined.
